(** * adafruit_bmp3xx: the BMP388/BMP390 driver, embedded and verified

    The driver of [src/adafruit_bmp3xx.py] is a Python class whose methods
    talk to the sensor through two abstract transport operations
    ([_read_register], [_write_register_byte]) and [time.sleep].  It is
    embedded here as interaction trees over those three events: a method is a
    tree whose leaves are either a raised exception or a returned value, the
    unbounded status poll of [_read] is a genuine loop ([ITree.iter]), and a
    transport gives the events their meaning as a state transformer of a
    device.  Python [int] is [Z]; Python [float] is the kernel's IEEE-754
    binary64 type.  Python's [/] raises on a zero divisor, and its [**]
    (the C library's [pow] with Python's error checks around it) is a
    parameter, since it is not one of the basic operations.

    The two bus adapters, [BMP3XX_I2C] and [BMP3XX_SPI], implement the
    transport operations by calls on a bus device object; their methods are
    trees over those calls in the same way. *)

From Stdlib Require Import ZArith List String Ascii Bool Lia Floats.
From ITree Require Import ITree ITreeFacts Events.State Events.StateFacts.
From ITree Require Import Props.Leaf.
Import ListNotations.

Set Warnings "-inexact-float".
Local Open Scope Z_scope.

(** ** Python built-ins the driver relies on *)

Module Py.

(** Exceptions a method of the driver can end with. *)
Inductive exn : Type :=
| RuntimeError (msg : string) (chip_id : Z)
| ValueError (msg : string) (legal : list Z)
| IndexError
| StructError
| ZeroDivisionError
| OverflowError.

(** [x in t] for a tuple or a set literal of ints. *)
Definition contains (x : Z) (t : list Z) : bool := existsb (Z.eqb x) t.

(** [t.index(x)]: position of the first element equal to [x]. *)
Fixpoint index (x : Z) (t : list Z) : option Z :=
  match t with
  | [] => None
  | y :: t' => if x =? y then Some 0 else option_map Z.succ (index x t')
  end.

(** [t[i]]: a negative subscript counts from the end, and a subscript
    outside [-len(t), len(t)) raises IndexError. *)
Definition getitem {A : Type} (t : list A) (i : Z) : option A :=
  let n := Z.of_nat (List.length t) in
  if (0 <=? i) && (i <? n) then nth_error t (Z.to_nat i)
  else if (- n <=? i) && (i <? 0) then nth_error t (Z.to_nat (n + i))
  else None.

(** [int.from_bytes(bs, "little")] on byte values. *)
Fixpoint from_bytes_le (bs : list Z) : Z :=
  match bs with
  | [] => 0
  | b :: bs' => Z.lor b (Z.shiftl (from_bytes_le bs') 8)
  end.

(** Reinterpret an unsigned [8 * size]-bit value as two's complement. *)
Definition to_signed (size : nat) (u : Z) : Z :=
  let bits := 8 * Z.of_nat size in
  if Z.testbit u (bits - 1) then u - Z.shiftl 1 bits else u.

(** The format characters of [struct] the driver uses, in the standard
    (unaligned) sizes that the byte-order prefix selects. *)
Definition field_size (c : ascii) : option nat :=
  match c with
  | "H"%char | "h"%char => Some 2%nat
  | "b"%char => Some 1%nat
  | _ => None
  end.

Definition field_signed (c : ascii) : bool :=
  match c with
  | "h"%char | "b"%char => true
  | _ => false
  end.

(** Decode the fields named by [fmt] from [data], left to right; [None]
    on an unknown format character or when the buffer length differs from
    the size the format requires. *)
Fixpoint unpack_le (fmt : string) (data : list Z) : option (list Z) :=
  match fmt with
  | EmptyString => match data with [] => Some [] | _ :: _ => None end
  | String c fmt' =>
      match field_size c with
      | None => None
      | Some n =>
          if (List.length data <? n)%nat then None
          else
            let u := from_bytes_le (firstn n data) in
            let v := if field_signed c then to_signed n u else u in
            option_map (cons v) (unpack_le fmt' (skipn n data))
      end
  end.

(** [struct.unpack(fmt, data)] for little-endian formats. *)
Definition struct_unpack (fmt : string) (data : list Z) : option (list Z) :=
  match fmt with
  | String "<"%char fmt' => unpack_le fmt' data
  | _ => None
  end.

(** [float(z)]: the nearest binary64 value, ties to even.  (Python
    raises OverflowError from 2^1024 on; the driver converts only ints
    below 2^24 in magnitude.) *)
Definition of_int (z : Z) : float :=
  SF2Prim (binary_normalize prec emax z 0 false).

(** [x / y] on floats: a zero divisor raises instead of giving an
    infinity or a NaN. *)
Definition truediv (x y : float) : exn + float :=
  if PrimFloat.eqb y 0 then inl ZeroDivisionError else inr (x / y)%float.

(** What [time.sleep(seconds)] raises on a float instead of sleeping, as
    CPython has it: NaN is refused; the delay is converted to nanoseconds
    ([seconds * 1e9], which must lie in the signed 64-bit range
    [-2^63, 2^63)), and a delay that does not fit raises OverflowError; a
    negative delay is refused.  [None] when the call goes on to sleep
    (which [-0.0] does). *)
Definition sleep_error (seconds : float) : option exn :=
  if PrimFloat.is_nan seconds
  then Some (ValueError "Invalid value NaN (not a number)" [])
  else
    let ns := (seconds * 1e9)%float in
    if (ns <? - 9223372036854775808)%float
       || (9223372036854775808 <=? ns)%float
    then Some OverflowError
    else if (seconds <? 0)%float
    then Some (ValueError "sleep length must be non-negative" [])
    else None.

End Py.

Import Py.

(** [x ** y] on floats, [float.__pow__]: the C library's [pow] behind
    Python's checks, which raise ZeroDivisionError (zero to a negative
    power) or OverflowError (result out of range).  The parameter covers
    the calls that raise or give a float; a negative base with a fractional
    exponent leaves the floats and is outside this embedding. *)
Class Libm : Type := { fpow : float -> float -> exn + float }.

(** ** Events and the method monad *)

(** What a method can ask of the outside world.  A register read yields
    the bytearray the transport filled. *)
Variant ioE : Type -> Type :=
| ReadRegister (register : Z) (length : nat) : ioE (list Z)
| WriteRegisterByte (register value : Z) : ioE unit
| Sleep (seconds : float) : ioE unit.

(** A method body: a tree of events ending in an exception or a value. *)
Definition M (R : Type) : Type := itree ioE (exn + R).

Definition ret {R : Type} (r : R) : M R := Ret (inr r).

Definition raise {R : Type} (e : exn) : M R := Ret (inl e).

Definition bind {R S : Type} (m : M R) (k : R -> M S) : M S :=
  ITree.bind m (fun x => match x with
                         | inl e => Ret (inl e)
                         | inr r => k r
                         end).

Definition perform {R : Type} (e : ioE R) : M R :=
  ITree.bind (ITree.trigger e) (fun r => Ret (inr r)).

(** A subscript or unpacking that raises when Python's would. *)
Definition or_raise {R : Type} (e : exn) (o : option R) : M R :=
  match o with
  | Some r => ret r
  | None => raise e
  end.

(** [while cond: body].  One iteration evaluates the condition, leaves the
    loop when it is false, and otherwise runs the body and starts over;
    an exception in either ends the loop with that exception. *)
Definition while (cond : M bool) (body : M unit) : M unit :=
  ITree.iter
    (fun _ : unit =>
       ITree.bind cond
         (fun c =>
            match c with
            | inl e => Ret (inr (inl e))
            | inr false => Ret (inr (inr tt))
            | inr true =>
                ITree.bind body
                  (fun b =>
                     match b with
                     | inl e => Ret (inr (inl e))
                     | inr _ => Ret (inl tt)
                     end)
            end))
    tt.

Declare Scope py_scope.
Delimit Scope py_scope with py.
Notation "x <- m ;; k" := (bind m (fun x => k))
  (at level 61, m at next level, right associativity) : py_scope.
Notation "m ;; k" := (bind m (fun _ => k))
  (at level 61, right associativity) : py_scope.
Local Open Scope py_scope.

(** ** The driver *)

Definition _BMP388_CHIP_ID : Z := 0x50.
Definition _BMP390_CHIP_ID : Z := 0x60.

Definition _REGISTER_CHIPID : Z := 0x00.
Definition _REGISTER_STATUS : Z := 0x03.
Definition _REGISTER_PRESSUREDATA : Z := 0x04.
Definition _REGISTER_TEMPDATA : Z := 0x07.
Definition _REGISTER_CONTROL : Z := 0x1B.
Definition _REGISTER_OSR : Z := 0x1C.
Definition _REGISTER_ODR : Z := 0x1D.
Definition _REGISTER_CONFIG : Z := 0x1F.
Definition _REGISTER_CAL_DATA : Z := 0x31.
Definition _REGISTER_CMD : Z := 0x7E.

(** Pressure and temperature oversampling settings. *)
Definition _OSR_SETTINGS : list Z := [1; 2; 4; 8; 16; 32].
(** IIR filter coefficients. *)
Definition _IIR_SETTINGS : list Z := [0; 2; 4; 8; 16; 32; 64; 128].

Definition temp_calib : Type := float * float * float.
Definition pressure_calib : Type :=
  float * float * float * float * float * float * float * float * float
  * float * float.

(** The attributes of a constructed sensor object. *)
Record BMP3XX : Type := {
  _temp_calib : temp_calib;
  _pressure_calib : pressure_calib;
  sea_level_pressure : float;
  _wait_time : float
}.

Definition osr_error : exn :=
  ValueError "Oversampling must be one of: " _OSR_SETTINGS.
Definition iir_error : exn :=
  ValueError "Filter coefficient must be one of: " _IIR_SETTINGS.
(** What [tuple.index] raises on a missing element. *)
Definition index_error : exn :=
  ValueError "tuple.index(x): x not in tuple" [].

Section Driver.

Context {libm : Libm}.

(** The transport operations, abstract in the base class. *)
Definition _read_register (register : Z) (length : nat) : M (list Z) :=
  perform (ReadRegister register length).

Definition _write_register_byte (register value : Z) : M unit :=
  perform (WriteRegisterByte register value).

(** [time.sleep(seconds)]: the checks of the call, then the delay. *)
Definition time_sleep (seconds : float) : M unit :=
  match sleep_error seconds with
  | Some e => raise e
  | None => perform (Sleep seconds)
  end.

(** [t[i]] inside a method. *)
Definition item {A : Type} (t : list A) (i : Z) : M A :=
  or_raise IndexError (getitem t i).

Definition _read_byte (register : Z) : M Z :=
  data <- _read_register register 1 ;;
  item data 0.

Definition pressure_oversampling : M Z :=
  osr <- _read_byte _REGISTER_OSR ;;
  item _OSR_SETTINGS (Z.land osr 0x07).

Definition set_pressure_oversampling (oversample : Z) : M unit :=
  if negb (contains oversample _OSR_SETTINGS) then raise osr_error
  else
    osr <- _read_byte _REGISTER_OSR ;;
    idx <- or_raise index_error (index oversample _OSR_SETTINGS) ;;
    let new_setting := Z.lor (Z.land osr 0xF8) idx in
    _write_register_byte _REGISTER_OSR new_setting.

Definition temperature_oversampling : M Z :=
  osr <- _read_byte _REGISTER_OSR ;;
  item _OSR_SETTINGS (Z.land (Z.shiftr osr 3) 0x07).

Definition set_temperature_oversampling (oversample : Z) : M unit :=
  if negb (contains oversample _OSR_SETTINGS) then raise osr_error
  else
    osr <- _read_byte _REGISTER_OSR ;;
    idx <- or_raise index_error (index oversample _OSR_SETTINGS) ;;
    let new_setting := Z.lor (Z.land osr 0xC7) (Z.shiftl idx 3) in
    _write_register_byte _REGISTER_OSR new_setting.

Definition filter_coefficient : M Z :=
  config <- _read_byte _REGISTER_CONFIG ;;
  item _IIR_SETTINGS (Z.land (Z.shiftr config 1) 0x07).

Definition set_filter_coefficient (coef : Z) : M unit :=
  if negb (contains coef _IIR_SETTINGS) then raise iir_error
  else
    idx <- or_raise index_error (index coef _IIR_SETTINGS) ;;
    _write_register_byte _REGISTER_CONFIG (Z.shiftl idx 1).

Definition reset : M unit :=
  _write_register_byte _REGISTER_CMD 0xB6.

(** [x / y] and [x ** y] inside a method. *)
Definition div (x y : float) : M float := Ret (truediv x y).
Definition pow (x y : float) : M float := Ret (fpow x y).

Notation "x // y" := (div x%float y%float)
  (at level 40, left associativity) : py_scope.
Notation "x ** y" := (pow x%float y%float)
  (at level 30, right associativity) : py_scope.

(** One forced-mode measurement: the pair (pressure, temperature). *)
Definition _read (self : BMP3XX) : M (float * float) :=
  _write_register_byte _REGISTER_CONTROL 0x13 ;;
  while (status <- _read_byte _REGISTER_STATUS ;;
         ret (negb (Z.land status 0x60 =? 0x60)))
        (time_sleep (_wait_time self)) ;;
  data <- _read_register _REGISTER_PRESSUREDATA 6 ;;
  p2 <- item data 2 ;; p1 <- item data 1 ;; p0 <- item data 0 ;;
  let adc_p := Z.lor (Z.lor (Z.shiftl p2 16) (Z.shiftl p1 8)) p0 in
  t2 <- item data 5 ;; t1 <- item data 4 ;; t0 <- item data 3 ;;
  let adc_t := Z.lor (Z.lor (Z.shiftl t2 16) (Z.shiftl t1 8)) t0 in
  let '(T1, T2, T3) := _temp_calib self in
  let pd1 := (of_int adc_t - T1)%float in
  let pd2 := (pd1 * T2)%float in
  let temperature := (pd2 + (pd1 * pd1) * T3)%float in
  let '(P1, P2, P3, P4, P5, P6, P7, P8, P9, P10, P11) :=
    _pressure_calib self in
  let pd1 := (P6 * temperature)%float in
  sq <- temperature ** 2 ;;
  let pd2 := (P7 * sq)%float in
  cb <- temperature ** 3 ;;
  let pd3 := (P8 * cb)%float in
  let po1 := (P5 + pd1 + pd2 + pd3)%float in
  let pd1 := (P2 * temperature)%float in
  sq <- temperature ** 2 ;;
  let pd2 := (P3 * sq)%float in
  cb <- temperature ** 3 ;;
  let pd3 := (P4 * cb)%float in
  let po2 := (of_int adc_p * (P1 + pd1 + pd2 + pd3))%float in
  pd1 <- of_int adc_p ** 2 ;;
  let pd2 := (P9 + P10 * temperature)%float in
  let pd3 := (pd1 * pd2)%float in
  cb <- of_int adc_p ** 3 ;;
  let pd4 := (pd3 + P11 * cb)%float in
  let pressure := (po1 + po2 + pd4)%float in
  ret (pressure, temperature).

(** The pressure in hPa. *)
Definition pressure (self : BMP3XX) : M float :=
  r <- _read self ;;
  fst r // of_int 100.

(** The temperature in degrees Celsius. *)
Definition temperature (self : BMP3XX) : M float :=
  r <- _read self ;;
  ret (snd r).

(** The altitude in meters for the currently set sea level pressure. *)
Definition altitude (self : BMP3XX) : M float :=
  p <- pressure self ;;
  ratio <- p // sea_level_pressure self ;;
  y <- ratio ** 0.190284 ;;
  ret (44307.7 * (of_int 1 - y))%float.

(** [c / 2**k] and [(c - 2**14.0) / 2**k], the two shapes of an entry
    of the calibration tuples. *)
Definition scaled (c : Z) (k : float) : M float :=
  s <- of_int 2 ** k ;;
  of_int c // s.

Definition offset_scaled (c : Z) (k : float) : M float :=
  o <- of_int 2 ** 14 ;;
  s <- of_int 2 ** k ;;
  (of_int c - o) // s.

(** Read the calibration block: the two tuples the method stores in
    [self._temp_calib] and [self._pressure_calib]. *)
Definition _read_coefficients : M (temp_calib * pressure_calib) :=
  coeff <- _read_register _REGISTER_CAL_DATA 21 ;;
  coeff <- or_raise StructError (struct_unpack "<HHbhhbbHHbbhbb" coeff) ;;
  c <- item coeff 0 ;; T1 <- scaled c (- 8) ;;
  c <- item coeff 1 ;; T2 <- scaled c 30 ;;
  c <- item coeff 2 ;; T3 <- scaled c 48 ;;
  c <- item coeff 3 ;; P1 <- offset_scaled c 20 ;;
  c <- item coeff 4 ;; P2 <- offset_scaled c 29 ;;
  c <- item coeff 5 ;; P3 <- scaled c 32 ;;
  c <- item coeff 6 ;; P4 <- scaled c 37 ;;
  c <- item coeff 7 ;; P5 <- scaled c (- 3) ;;
  c <- item coeff 8 ;; P6 <- scaled c 6 ;;
  c <- item coeff 9 ;; P7 <- scaled c 8 ;;
  c <- item coeff 10 ;; P8 <- scaled c 15 ;;
  c <- item coeff 11 ;; P9 <- scaled c 48 ;;
  c <- item coeff 12 ;; P10 <- scaled c 48 ;;
  c <- item coeff 13 ;; P11 <- scaled c 65 ;;
  ret ((T1, T2, T3), (P1, P2, P3, P4, P5, P6, P7, P8, P9, P10, P11)).

(** The constructor of the base class: the object it leaves behind. *)
Definition __init__ : M BMP3XX :=
  chip_id <- _read_byte _REGISTER_CHIPID ;;
  if negb (contains chip_id [_BMP388_CHIP_ID; _BMP390_CHIP_ID])
  then raise (RuntimeError "Failed to find BMP3XX! Chip ID " chip_id)
  else
    calib <- _read_coefficients ;;
    reset ;;
    ret {| _temp_calib := fst calib;
           _pressure_calib := snd calib;
           sea_level_pressure := 1013.25;
           _wait_time := 0.002 |}.

End Driver.

(** ** Transports and runs *)

(** What a concrete bus adapter provides: the effect of each event on the
    device behind it.  A read returns the device after the transaction and
    the bytes it delivered. *)
Class Transport (Dev : Type) : Type := {
  read_register : Z -> nat -> Dev -> Dev * list Z;
  write_register_byte : Z -> Z -> Dev -> Dev;
  sleep : float -> Dev -> Dev
}.

Section Run.

Context {Dev : Type} {bus : Transport Dev}.

Definition handle : ioE ~> Monads.stateT Dev (itree void1) :=
  fun _ e d =>
    match e with
    | ReadRegister r n => Ret (read_register r n d)
    | WriteRegisterByte r v => Ret (write_register_byte r v d, tt)
    | Sleep s => Ret (sleep s d, tt)
    end.

(** Running a method against a device. *)
Definition run {R : Type} (m : M R) (d : Dev)
  : itree void1 (Dev * (exn + R)) :=
  interp_state handle m d.

(** [yields m d d' r]: started on device [d], the method [m] terminates,
    leaves the device as [d'], and ends with [r] (an exception on the
    left, a value on the right). *)
Definition yields {R : Type} (m : M R) (d d' : Dev) (r : exn + R) : Prop :=
  eutt eq (run m d) (Ret (d', r)).

(** The device after a one-byte read, and the byte. *)
Definition byte_read (register : Z) (d d' : Dev) (b : Z) : Prop :=
  read_register register 1 d = (d', [b]).

(** The status poll of [_read] seen from the device: [polls w d d']
    holds when, starting from [d] and sleeping [w] between reads, some
    read of the status register shows both conversions complete,
    leaving the device as [d'].  A read that finds the device busy is
    followed by [time.sleep(w)], which has to accept [w] for the poll to
    go on. *)
Inductive polls (w : float) : Dev -> Dev -> Prop :=
| polls_ready d d' b :
    byte_read _REGISTER_STATUS d d' b ->
    Z.land b 0x60 = 0x60 ->
    polls w d d'
| polls_busy d d1 b d' :
    byte_read _REGISTER_STATUS d d1 b ->
    Z.land b 0x60 <> 0x60 ->
    sleep_error w = None ->
    polls w (sleep w d1) d' ->
    polls w d d'.

End Run.

(** ** A register-file device

    A simulated sensor for exercising the driver: a byte per register
    address, a count of status polls that still find the conversion
    running, and a log of the bus transactions seen (latest first). *)

Variant bus_op : Type :=
| Read (register : Z) (length : nat)
| Write (register value : Z).

Record sensor : Type := {
  regs : Z -> Z;
  busy : nat;
  bus_log : list bus_op
}.

Definition sensor_read (r : Z) (n : nat) (d : sensor) : sensor * list Z :=
  let data :=
    List.map (fun i => Z.land (regs d (r + Z.of_nat i)) 0xFF) (seq 0 n) in
  if (r =? _REGISTER_STATUS) && negb (Nat.eqb (busy d) 0) then
    ({| regs := regs d; busy := pred (busy d);
        bus_log := Read r n :: bus_log d |},
     List.map (fun b => Z.land b 0x9F) data)
  else
    ({| regs := regs d; busy := busy d; bus_log := Read r n :: bus_log d |},
     data).

Definition sensor_write (r v : Z) (d : sensor) : sensor :=
  {| regs := fun a => if a =? r then Z.land v 0xFF else regs d a;
     busy := busy d;
     bus_log := Write r v :: bus_log d |}.

#[export] Instance sensor_bus : Transport sensor := {
  read_register := sensor_read;
  write_register_byte := sensor_write;
  sleep := fun _ d => d
}.

(** A device whose registers hold the listed bytes and zero elsewhere. *)
Fixpoint regs_of (l : list (Z * Z)) (a : Z) : Z :=
  match l with
  | [] => 0
  | (r, v) :: l' => if a =? r then v else regs_of l' a
  end.

Definition sensor_with (l : list (Z * Z)) (polls_left : nat) : sensor :=
  {| regs := regs_of l; busy := polls_left; bus_log := [] |}.

(** A stand-in for [**] on which examples can be run: repeated
    multiplication for integral exponents, NaN otherwise. *)
Fixpoint pow_nat (x : float) (n : nat) : float :=
  match n with
  | O => 1
  | S n' => x * pow_nat x n'
  end.

Definition integral (y : float) : option Z :=
  match Prim2SF y with
  | S754_zero _ => Some 0
  | S754_finite s m e =>
      if (e <? 0) && negb (Zpos m mod 2 ^ (- e) =? 0) then None
      else
        let v := if 0 <=? e then Zpos m * 2 ^ e else Zpos m / 2 ^ (- e) in
        Some (if s then - v else v)
  | _ => None
  end.

Definition example_pow (x y : float) : exn + float :=
  match integral y with
  | Some 0 => inr 1%float
  | Some (Zpos k) => inr (pow_nat x (Pos.to_nat k))
  | Some (Zneg k) =>
      if PrimFloat.eqb x 0 then inl ZeroDivisionError
      else inr (1 / pow_nat x (Pos.to_nat k))%float
  | None => inr nan
  end.

Definition example_libm : Libm := {| fpow := example_pow |}.

(** ** The specification's formulas

    Written from the specification's words, to be compared with what the
    methods above compute. *)

Module Spec.

Definition byte (b : Z) : Prop := 0 <= b < 256.

(** Three bytes as a little-endian 24-bit unsigned integer. *)
Definition le24 (b0 b1 b2 : Z) : Z := b0 + 2 ^ 8 * b1 + 2 ^ 16 * b2.

(** The field types of the calibration block, little-endian. *)
Definition unsigned16 (lo hi : Z) : Z := lo + 2 ^ 8 * hi.

Definition signed16 (lo hi : Z) : Z :=
  if unsigned16 lo hi <? 2 ^ 15 then unsigned16 lo hi
  else unsigned16 lo hi - 2 ^ 16.

Definition signed8 (b : Z) : Z := if b <? 2 ^ 7 then b else b - 2 ^ 8.

(** Bits [hi:lo] of a register value, and the value with them cleared. *)
Definition bits (hi lo : Z) (b : Z) : Z :=
  (b / 2 ^ lo) mod 2 ^ (hi - lo + 1).

Definition outside (hi lo : Z) (b : Z) : Z := b - 2 ^ lo * bits hi lo b.

(** The float that is exactly [2^k]. *)
Definition pow2 (k : Z) : float := Z.ldexp 1 k.

(** The exponents of the scale factors and of the offset. *)
Definition scale_exponents : list Z :=
  [-8; 30; 48; 14; 20; 29; 32; 37; -3; 6; 8; 15; 65].

(** The calibration coefficients of a 21-byte block. *)
Definition coefficients (block : list Z)
  : option (temp_calib * pressure_calib) :=
  match block with
  | [b0; b1; b2; b3; b4; b5; b6; b7; b8; b9; b10; b11; b12; b13; b14;
     b15; b16; b17; b18; b19; b20] =>
      Some
        ((of_int (unsigned16 b0 b1) / pow2 (-8),
          of_int (unsigned16 b2 b3) / pow2 30,
          of_int (signed8 b4) / pow2 48),
         ((of_int (signed16 b5 b6) - pow2 14) / pow2 20,
          (of_int (signed16 b7 b8) - pow2 14) / pow2 29,
          of_int (signed8 b9) / pow2 32,
          of_int (signed8 b10) / pow2 37,
          of_int (unsigned16 b11 b12) / pow2 (-3),
          of_int (unsigned16 b13 b14) / pow2 6,
          of_int (signed8 b15) / pow2 8,
          of_int (signed8 b16) / pow2 15,
          of_int (signed16 b17 b18) / pow2 48,
          of_int (signed8 b19) / pow2 48,
          of_int (signed8 b20) / pow2 65))%float
  | _ => None
  end.

(** Temperature compensation. *)
Definition temperature (T : temp_calib) (adc_t : Z) : float :=
  let '(T1, T2, T3) := T in
  let pd1 := (of_int adc_t - T1)%float in
  let pd2 := (pd1 * T2)%float in
  (pd2 + (pd1 * pd1) * T3)%float.

(** The altitude in meters for a ratio [(p / s) ^ 0.190284]. *)
Definition altitude_m (ratio_pow : float) : float :=
  (44307.7 * (1 - ratio_pow))%float.

Section WithLibm.

Context {libm : Libm}.

(** The C library is exact on the powers of two the driver asks for. *)
Definition exact_pow2 : Prop :=
  forall k, In k scale_exponents -> fpow 2 (of_int k) = inr (pow2 k).

(** The powers [t^2], [t^3], [adc_p^2], [adc_p^3] of one reading. *)
Definition powers (t : float) (adc_p : Z) (t2 t3 a2 a3 : float) : Prop :=
  fpow t 2 = inr t2 /\ fpow t 3 = inr t3 /\
  fpow (of_int adc_p) 2 = inr a2 /\ fpow (of_int adc_p) 3 = inr a3.

End WithLibm.

(** Pressure compensation, from the temperature [t], the pressure ADC
    value and their powers. *)
Definition pressure_raw (P : pressure_calib) (t : float) (adc_p : Z)
    (t2 t3 a2 a3 : float) : float :=
  let '(P1, P2, P3, P4, P5, P6, P7, P8, P9, P10, P11) := P in
  let po1 := (P5 + P6 * t + P7 * t2 + P8 * t3)%float in
  let po2 := (of_int adc_p * (P1 + P2 * t + P3 * t2 + P4 * t3))%float in
  let pd4 := ((P9 + P10 * t) * a2 + P11 * a3)%float in
  (po1 + po2 + pd4)%float.

End Spec.

(** ** The three configuration properties side by side *)

Inductive setting : Type :=
| PressureOversampling
| TemperatureOversampling
| FilterCoefficient.

Definition getter (s : setting) : M Z :=
  match s with
  | PressureOversampling => pressure_oversampling
  | TemperatureOversampling => temperature_oversampling
  | FilterCoefficient => filter_coefficient
  end.

Definition setter (s : setting) : Z -> M unit :=
  match s with
  | PressureOversampling => set_pressure_oversampling
  | TemperatureOversampling => set_temperature_oversampling
  | FilterCoefficient => set_filter_coefficient
  end.

Definition legal (s : setting) : list Z :=
  match s with
  | FilterCoefficient => _IIR_SETTINGS
  | _ => _OSR_SETTINGS
  end.

Definition rejection (s : setting) : exn :=
  match s with
  | FilterCoefficient => iir_error
  | _ => osr_error
  end.

Definition register_of (s : setting) : Z :=
  match s with
  | FilterCoefficient => _REGISTER_CONFIG
  | _ => _REGISTER_OSR
  end.

(** The bit field of each property, as the register map gives it. *)
Definition field (s : setting) (b : Z) : Z :=
  match s with
  | PressureOversampling => Spec.bits 2 0 b
  | TemperatureOversampling => Spec.bits 5 3 b
  | FilterCoefficient => Spec.bits 3 1 b
  end.

(** The byte each setter writes, from the register value [b] it read (the
    filter setter reads none) and the table position [i]. *)
Definition written (s : setting) (b i : Z) : Z :=
  match s with
  | PressureOversampling => Z.lor (Z.land b 0xF8) i
  | TemperatureOversampling => Z.lor (Z.land b 0xC7) (Z.shiftl i 3)
  | FilterCoefficient => Z.shiftl i 1
  end.

(** What the register map asks of a written byte: the position sits in
    the property's field, and (for the oversampling register) every bit
    outside the field is the one read before. *)
Definition well_merged (b i : Z) : bool :=
  (field PressureOversampling (written PressureOversampling b i) =? i)
  && (Spec.outside 2 0 (written PressureOversampling b i)
      =? Spec.outside 2 0 b)
  && (field TemperatureOversampling (written PressureOversampling b i)
      =? field TemperatureOversampling b)
  && (field TemperatureOversampling (written TemperatureOversampling b i)
      =? i)
  && (Spec.outside 5 3 (written TemperatureOversampling b i)
      =? Spec.outside 5 3 b)
  && (field PressureOversampling (written TemperatureOversampling b i)
      =? field PressureOversampling b)
  && (field FilterCoefficient (written FilterCoefficient b i) =? i)
  && (Spec.outside 3 1 (written FilterCoefficient b i) =? 0)
  && (0 <=? written PressureOversampling b i)
  && (written PressureOversampling b i <? 256)
  && (0 <=? written TemperatureOversampling b i)
  && (written TemperatureOversampling b i <? 256)
  && (0 <=? written FilterCoefficient b i)
  && (written FilterCoefficient b i <? 256).

Section TransportProperties.

Context {Dev : Type} {bus : Transport Dev}.

(** The register behind [register] holds the last byte written to it. *)
Definition holds_last_write (register : Z) : Prop :=
  forall (d : Dev) (v : Z),
    Spec.byte v ->
    exists d', byte_read register (write_register_byte register v d) d' v.

(** A one-byte read delivers one byte, as a [bytearray(1)] does. *)
Definition reads_bytes : Prop :=
  forall (register : Z) (d : Dev),
    exists d' b, byte_read register d d' b /\ Spec.byte b.

End TransportProperties.
(** ** A worked example

    A device that answers as a BMP388 would: identity 0x50, a calibration
    block, one status poll that still finds the conversion running, and a
    pair of ADC words. *)

Definition example_block : list Z :=
  [0x70; 0x6B; 0x43; 0x67; 0xF6; 0x3B; 0xE3; 0x4E; 0xF0; 0x23; 0x00; 0xA3;
   0x61; 0x5B; 0x5E; 0x03; 0xF9; 0x0E; 0x10; 0x06; 0xC4].

Definition example_registers : list (Z * Z) :=
  [(_REGISTER_CHIPID, 0x50); (_REGISTER_STATUS, 0x60);
   (0x04, 0xA0); (0x05, 0x2E); (0x06, 0x63);
   (0x07, 0xE0); (0x08, 0xA5); (0x09, 0x7E)]
  ++ combine (List.map (fun i => _REGISTER_CAL_DATA + Z.of_nat i) (seq 0 21))
       example_block.

Definition example_device : sensor := sensor_with example_registers 1.

Definition example_calibration : temp_calib * pressure_calib :=
  match Spec.coefficients example_block with
  | Some c => c
  | None => ((0, 0, 0), (0, 0, 0, 0, 0, 0, 0, 0, 0, 0, 0))%float
  end.

(** The object a construction on [example_device] leaves, with the sea
    level reference a caller may have assigned since. *)
Definition example_self (sea_level : float) : BMP3XX :=
  {| _temp_calib := fst example_calibration;
     _pressure_calib := snd example_calibration;
     sea_level_pressure := sea_level;
     _wait_time := 0.002 |}.


(** ** Devices over time *)

Section DeviceProperties.

Context {Dev : Type} {bus : Transport Dev}.

(** [never_ready w I]: [I] is a set of device states that the status poll
    (a read of the status register, then a sleep of [w]) never leaves and
    in which no status read shows both ready bits. *)
Definition never_ready (w : float) (I : Dev -> Prop) : Prop :=
  forall d : Dev,
    I d ->
    exists d1 b,
      byte_read _REGISTER_STATUS d d1 b
      /\ Z.land b 0x60 <> 0x60
      /\ I (sleep w d1).

(** [remembers register holds]: [holds d v] is a way of saying that the
    register contains [v]; a write of a byte establishes it and a one-byte
    read delivers [v] and keeps it. *)
Definition remembers (register : Z) (holds : Dev -> Z -> Prop) : Prop :=
  (forall (d : Dev) (v : Z),
      Spec.byte v -> holds (write_register_byte register v d) v)
  /\ (forall (d : Dev) (v : Z),
         holds d v -> exists d', byte_read register d d' v /\ holds d' v).

End DeviceProperties.

(** [struct.calcsize] of a format without its byte-order prefix: the
    number of bytes [unpack_le] requires. *)
Fixpoint calcsize (fmt : string) : option nat :=
  match fmt with
  | EmptyString => Some 0%nat
  | String c fmt' =>
      match field_size c, calcsize fmt' with
      | Some n, Some m => Some (n + m)%nat
      | _, _ => None
      end
  end.

(** ** The bus adapters

    [BMP3XX_I2C] and [BMP3XX_SPI] implement the two transport operations
    on a bus device object: they enter it ([with self._i2c as i2c:]),
    call [write] and [readinto] on it, and leave it.  Those calls are the
    events of an adapter method. *)

Variant wireE : Type -> Type :=
| Enter : wireE unit
| Leave : wireE unit
| BusWrite (buf : list Z) : wireE unit
| BusReadinto (length : nat) : wireE (list Z).

(** An adapter method: a tree of bus calls ending in an exception or a
    value. *)
Definition A (R : Type) : Type := itree wireE (exn + R).

Definition and_then {R S : Type} (m : A R) (k : R -> A S) : A S :=
  ITree.bind m (fun x => match x with
                         | inl e => Ret (inl e)
                         | inr r => k r
                         end).

Definition call {R : Type} (e : wireE R) : A R :=
  ITree.bind (ITree.trigger e) (fun r => Ret (inr r)).

(** [with device: body]: the device is left on every way out of the body,
    and an exception of the body goes on after that. *)
Definition with_device {R : Type} (body : A R) : A R :=
  ITree.bind (ITree.trigger Enter)
    (fun _ => ITree.bind body
                (fun r => ITree.bind (ITree.trigger Leave)
                            (fun _ => Ret r))).

(** [bytes(iterable)]: every item must be in [range(0, 256)]. *)
Definition bytes (items : list Z) : exn + list Z :=
  if forallb (fun b => (0 <=? b) && (b <? 256)) items then inr items
  else inl (ValueError "bytes must be in range(0, 256)" []).

Declare Scope wire_scope.
Delimit Scope wire_scope with wire.
Notation "x <- m ;; k" := (and_then m (fun x => k))
  (at level 61, m at next level, right associativity) : wire_scope.
Notation "m ;; k" := (and_then m (fun _ => k))
  (at level 61, right associativity) : wire_scope.

(** [bytearray(length)], and what [device.readinto(buf)] leaves in the
    buffer when the bus delivers [data]: the bytes overwrite the buffer
    from its start and the buffer keeps its length. *)
Definition bytearray (length : nat) : list Z := repeat 0 length.

Definition readinto (buf data : list Z) : list Z :=
  firstn (List.length buf) (data ++ skipn (List.length data) buf).

Module BMP3XX_I2C.

Local Open Scope wire_scope.

Definition _read_register (register : Z) (length : nat) : A (list Z) :=
  let result := bytearray length in
  with_device
    (frame <- Ret (bytes [Z.land register 0xFF]) ;;
     call (BusWrite frame) ;;
     data <- call (BusReadinto length) ;;
     Ret (inr (readinto result data))).

Definition _write_register_byte (register value : Z) : A unit :=
  with_device
    (frame <- Ret (bytes [Z.land register 0xFF; Z.land value 0xFF]) ;;
     call (BusWrite frame)).

End BMP3XX_I2C.

Module BMP3XX_SPI.

Local Open Scope wire_scope.

Definition _read_register (register : Z) (length : nat) : A (list Z) :=
  let result := bytearray length in
  with_device
    (frame <- Ret (bytes [Z.lor 0x80 register; 0x00]) ;;
     call (BusWrite frame) ;;
     data <- call (BusReadinto length) ;;
     Ret (inr (readinto result data))).

Definition _write_register_byte (register value : Z) : A unit :=
  with_device
    (frame <- Ret (bytes [Z.land register 0x7F; Z.land value 0xFF]) ;;
     call (BusWrite frame)).

End BMP3XX_SPI.

(** What a bus device object does with each call. *)
Class Wire (W : Type) : Type := {
  enter : W -> W;
  leave : W -> W;
  bus_write : list Z -> W -> W;
  bus_readinto : nat -> W -> W * list Z
}.

Section WireRun.

Context {W : Type} {wire : Wire W}.

Definition wire_handle : wireE ~> Monads.stateT W (itree void1) :=
  fun _ e w =>
    match e with
    | Enter => Ret (enter w, tt)
    | Leave => Ret (leave w, tt)
    | BusWrite buf => Ret (bus_write buf w, tt)
    | BusReadinto n => Ret (bus_readinto n w)
    end.

(** [gives m w w' r]: the adapter method [m], started on the bus device
    [w], terminates with the device as [w'] and the outcome [r]. *)
Definition gives {R : Type} (m : A R) (w w' : W) (r : exn + R) : Prop :=
  eutt eq (interp_state wire_handle m w) (Ret (w', r)).

End WireRun.

(** A bus device that records the calls made on it (latest first) and
    fills every read with the byte 0xA5. *)
Variant wire_op : Type :=
| Entered
| Left
| Wrote (buf : list Z)
| ReadInto (length : nat).

#[export] Instance recorder : Wire (list wire_op) := {
  enter := cons Entered;
  leave := cons Left;
  bus_write := fun buf w => Wrote buf :: w;
  bus_readinto := fun n w => (ReadInto n :: w, repeat 0xA5 n)
}.

(** A transport over the register-file device whose [_read_register]
    returns at most [limit] bytes, whatever length it is asked for: a
    subclass that does not keep to the length. *)
Definition truncating (limit : nat) : Transport sensor := {|
  read_register := fun r n d =>
    let '(d', data) := sensor_read r n d in (d', firstn limit data);
  write_register_byte := sensor_write;
  sleep := fun _ d => d
|}.

(** ** Runs of the monad's building blocks *)

Section RunFacts.

Context {Dev : Type} {bus : Transport Dev}.
Implicit Types d : Dev.

Lemma yields_ret {R : Type} (r : R) d : yields (ret r) d d (inr r).
Proof. unfold yields, run, ret. rewrite interp_state_ret. reflexivity. Qed.

Lemma yields_raise {R : Type} e d : yields (@raise R e) d d (inl e).
Proof. unfold yields, run, raise. rewrite interp_state_ret. reflexivity. Qed.

Lemma yields_pure {R : Type} (r : exn + R) d : yields (Ret r) d d r.
Proof. unfold yields, run. rewrite interp_state_ret. reflexivity. Qed.

Lemma yields_bind {R S : Type} (m : M R) (k : R -> M S) d d1 a d2 r :
  yields m d d1 (inr a) -> yields (k a) d1 d2 r -> yields (bind m k) d d2 r.
Proof.
  unfold yields, run, bind. intros Hm Hk.
  rewrite interp_state_bind, Hm, bind_ret_l. cbn. exact Hk.
Qed.

Lemma yields_bind_raise {R S : Type} (m : M R) (k : R -> M S) d d1 e :
  yields m d d1 (inl e) -> yields (bind m k) d d1 (inl e).
Proof.
  unfold yields, run, bind. intros Hm.
  rewrite interp_state_bind, Hm, bind_ret_l. cbn.
  rewrite interp_state_ret. reflexivity.
Qed.

(** A method run from a given device has one outcome. *)
Lemma yields_det {R : Type} (m : M R) d d1 r1 d2 r2 :
  yields m d d1 r1 -> yields m d d2 r2 -> d1 = d2 /\ r1 = r2.
Proof.
  unfold yields. intros H1 H2. rewrite H1 in H2.
  apply eutt_inv_Ret in H2. inversion H2. auto.
Qed.

Lemma yields_read r n d d' data :
  read_register r n d = (d', data) ->
  yields (_read_register r n) d d' (inr data).
Proof.
  intros H. unfold yields, run, _read_register, perform.
  rewrite interp_state_bind, interp_state_trigger. cbn.
  rewrite bind_ret_l, H. cbn. rewrite interp_state_ret. reflexivity.
Qed.

Lemma yields_write r v d :
  yields (_write_register_byte r v) d (write_register_byte r v d) (inr tt).
Proof.
  unfold yields, run, _write_register_byte, perform.
  rewrite interp_state_bind, interp_state_trigger. cbn.
  rewrite bind_ret_l. cbn. rewrite interp_state_ret. reflexivity.
Qed.

Lemma yields_sleep s d :
  sleep_error s = None -> yields (time_sleep s) d (sleep s d) (inr tt).
Proof.
  intros Hs. unfold yields, run, time_sleep, perform. rewrite Hs.
  rewrite interp_state_bind, interp_state_trigger. cbn.
  rewrite bind_ret_l. cbn. rewrite interp_state_ret. reflexivity.
Qed.

Lemma yields_sleep_raise s e d :
  sleep_error s = Some e -> yields (time_sleep s) d d (inl e).
Proof.
  intros Hs. unfold time_sleep. rewrite Hs. apply yields_raise.
Qed.

Lemma yields_while_exit cond body d d1 :
  yields cond d d1 (inr false) -> yields (while cond body) d d1 (inr tt).
Proof.
  unfold yields, run, while. intros Hc.
  rewrite unfold_iter, bind_bind, interp_state_bind, Hc, bind_ret_l. cbn.
  rewrite bind_ret_l, interp_state_ret. reflexivity.
Qed.

Lemma yields_while_step cond body d d1 d2 d3 r :
  yields cond d d1 (inr true) -> yields body d1 d2 (inr tt) ->
  yields (while cond body) d2 d3 r ->
  yields (while cond body) d d3 r.
Proof.
  unfold yields, run. intros Hc Hb Hw. unfold while at 1.
  rewrite unfold_iter, bind_bind, interp_state_bind, Hc, bind_ret_l. cbn.
  rewrite bind_bind, interp_state_bind, Hb, bind_ret_l. cbn.
  rewrite bind_ret_l, interp_state_tau, tau_eutt. exact Hw.
Qed.

Lemma yields_while_raise cond body d d1 d2 e :
  yields cond d d1 (inr true) -> yields body d1 d2 (inl e) ->
  yields (while cond body) d d2 (inl e).
Proof.
  unfold yields, run, while. intros Hc Hb.
  rewrite unfold_iter, bind_bind, interp_state_bind, Hc, bind_ret_l. cbn.
  rewrite bind_bind, interp_state_bind, Hb, bind_ret_l. cbn.
  rewrite bind_ret_l, interp_state_ret. reflexivity.
Qed.

Lemma yields_item {A : Type} (t : list A) i a d :
  getitem t i = Some a -> yields (item t i) d d (inr a).
Proof. intros H. unfold item. rewrite H. apply yields_ret. Qed.

Lemma yields_read_byte r d d' b :
  byte_read r d d' b -> yields (_read_byte r) d d' (inr b).
Proof.
  intros H. unfold _read_byte.
  eapply yields_bind; [apply yields_read, H | now apply yields_item].
Qed.

(** The status poll terminates exactly as the device says it does. *)
Lemma yields_poll w d d' :
  polls w d d' ->
  yields (while (bind (_read_byte _REGISTER_STATUS)
                   (fun status => ret (negb (Z.land status 0x60 =? 0x60))))
            (time_sleep w)) d d' (inr tt).
Proof.
  induction 1 as [d d' b Hb Hr | d d1 b d' Hb Hr Hs _ IH].
  - apply yields_while_exit.
    eapply yields_bind; [apply yields_read_byte, Hb |].
    rewrite Hr. apply yields_ret.
  - eapply yields_while_step; [| apply yields_sleep, Hs | exact IH].
    eapply yields_bind; [apply yields_read_byte, Hb |].
    apply Z.eqb_neq in Hr. rewrite Hr. apply yields_ret.
Qed.

End RunFacts.

(** ** Bytes, bit fields and floats *)

(** A property checked on each of the 256 byte values holds of every byte. *)
Lemma forall_bytes (P : Z -> bool) :
  forallb P (List.map Z.of_nat (seq 0 256)) = true ->
  forall b, Spec.byte b -> P b = true.
Proof.
  intros H b [Hlo Hhi]. rewrite forallb_forall in H. apply H.
  apply in_map_iff. exists (Z.to_nat b). split; [lia |].
  apply in_seq. lia.
Qed.

Lemma lor_shiftl_add (a x n : Z) :
  0 <= n -> 0 <= a < 2 ^ n -> Z.lor a (Z.shiftl x n) = a + 2 ^ n * x.
Proof.
  intros Hn Ha.
  assert (Hland : Z.land a (Z.shiftl x n) = 0).
  { apply Z.bits_inj'. intros i Hi.
    rewrite Z.land_spec, Z.bits_0.
    destruct (Z.lt_ge_cases i n) as [Hlt | Hge].
    - rewrite Z.shiftl_spec_low by assumption. apply andb_false_r.
    - destruct (Z.eq_dec a 0) as [-> | Hnz]; [now rewrite Z.bits_0 |].
      rewrite (Z.bits_above_log2 a i); [reflexivity | lia |].
      apply Z.lt_le_trans with n; [| assumption].
      apply Z.log2_lt_pow2; lia. }
  rewrite <- Z.lxor_lor by assumption.
  rewrite <- Z.add_nocarry_lxor by assumption.
  rewrite Z.shiftl_mul_pow2 by assumption. lia.
Qed.

Lemma from_bytes_le_2 (lo hi : Z) :
  Spec.byte lo -> from_bytes_le [lo; hi] = Spec.unsigned16 lo hi.
Proof.
  intros Hlo. unfold Spec.unsigned16. cbn [from_bytes_le].
  rewrite Z.shiftl_0_l, Z.lor_0_r.
  apply lor_shiftl_add; [lia | exact Hlo].
Qed.

Lemma from_bytes_le_1 (b : Z) : from_bytes_le [b] = b.
Proof. cbn [from_bytes_le]. now rewrite Z.shiftl_0_l, Z.lor_0_r. Qed.

Lemma testbit_top (u n : Z) :
  0 <= n -> 0 <= u < 2 ^ (n + 1) -> Z.testbit u n = negb (u <? 2 ^ n).
Proof.
  intros Hn Hu.
  assert (H2 : 2 ^ (n + 1) = 2 * 2 ^ n) by (rewrite Z.pow_add_r; lia).
  assert (Hp : 0 < 2 ^ n) by (apply Z.pow_pos_nonneg; lia).
  destruct (Z.ltb_spec u (2 ^ n)) as [Hlt | Hge]; cbn [negb].
  - apply Z.testbit_false; [assumption |].
    rewrite Z.div_small by lia. reflexivity.
  - apply Z.testbit_true; [assumption |].
    replace (u / 2 ^ n) with 1; [reflexivity |].
    apply Z.div_unique with (u - 2 ^ n); lia.
Qed.

Lemma to_signed_2 (lo hi : Z) :
  Spec.byte lo -> Spec.byte hi ->
  to_signed 2 (from_bytes_le [lo; hi]) = Spec.signed16 lo hi.
Proof.
  intros Hlo Hhi. rewrite from_bytes_le_2 by assumption.
  unfold to_signed, Spec.signed16.
  change (8 * Z.of_nat 2 - 1) with 15. change (8 * Z.of_nat 2) with 16.
  rewrite (testbit_top _ 15);
    [| lia | unfold Spec.unsigned16, Spec.byte in *; lia].
  change (Z.shiftl 1 16) with (2 ^ 16).
  destruct (Spec.unsigned16 lo hi <? 2 ^ 15); reflexivity.
Qed.

Lemma to_signed_1 (b : Z) :
  Spec.byte b -> to_signed 1 (from_bytes_le [b]) = Spec.signed8 b.
Proof.
  intros Hb. rewrite from_bytes_le_1. unfold to_signed, Spec.signed8.
  change (8 * Z.of_nat 1 - 1) with 7. change (8 * Z.of_nat 1) with 8.
  rewrite (testbit_top _ 7); [| lia | unfold Spec.byte in *; lia].
  change (Z.shiftl 1 8) with (2 ^ 8).
  destruct (b <? 2 ^ 7); reflexivity.
Qed.

(** The ADC words of [_read] are the little-endian 24-bit values. *)
Lemma adc_le24 (b0 b1 b2 : Z) :
  Spec.byte b0 -> Spec.byte b1 -> Spec.byte b2 ->
  Z.lor (Z.lor (Z.shiftl b2 16) (Z.shiftl b1 8)) b0 = Spec.le24 b0 b1 b2.
Proof.
  unfold Spec.byte, Spec.le24. intros H0 H1 H2.
  assert (Hhi : Z.lor (Z.shiftl b2 16) (Z.shiftl b1 8)
                = Z.shiftl (Z.lor b1 (Z.shiftl b2 8)) 8).
  { rewrite Z.shiftl_lor, Z.shiftl_shiftl by lia. apply Z.lor_comm. }
  rewrite Hhi, Z.lor_comm.
  rewrite lor_shiftl_add by lia. rewrite lor_shiftl_add by lia. lia.
Qed.

(** IEEE multiplication commutes. *)
Lemma float_mul_comm (x y : float) : (x * y)%float = (y * x)%float.
Proof.
  rewrite <- (SF2Prim_Prim2SF (x * y)), <- (SF2Prim_Prim2SF (y * x)).
  rewrite !mul_spec. f_equal.
  destruct (Prim2SF x) as [sx | sx | | sx mx ex],
           (Prim2SF y) as [sy | sy | | sy my ey];
    cbn; rewrite ?(xorb_comm sx sy); try reflexivity.
  now rewrite (Pos.mul_comm mx my), (Z.add_comm ex ey).
Qed.

Lemma pow2_nonzero (k : Z) :
  In k Spec.scale_exponents -> PrimFloat.eqb (Spec.pow2 k) 0 = false.
Proof.
  cbn. intros H.
  repeat (destruct H as [<- | H]; [vm_compute; reflexivity |]).
  contradiction.
Qed.

(** ** The configuration properties *)

Lemma contains_In (v : Z) (t : list Z) : contains v t = true <-> In v t.
Proof.
  unfold contains. rewrite existsb_exists. split.
  - intros (x & Hx & Heq). apply Z.eqb_eq in Heq. now subst.
  - intros H. exists v. split; [assumption | apply Z.eqb_refl].
Qed.

Lemma contains_not_In (v : Z) (t : list Z) :
  ~ In v t -> contains v t = false.
Proof.
  intros H. destruct (contains v t) eqn:E; [| reflexivity].
  apply contains_In in E. contradiction.
Qed.

(** A legal value has a table position, and the table gives it back. *)
Lemma index_legal (s : setting) (v : Z) :
  In v (legal s) ->
  exists i, index v (legal s) = Some i /\ getitem (legal s) i = Some v
            /\ 0 <= i < Z.of_nat (List.length (legal s)).
Proof.
  destruct s; cbn [legal]; intros H; cbn in H;
    repeat (destruct H as [<- | H];
            [eexists; split; [reflexivity |];
             split; [reflexivity | cbn; lia] |]);
    contradiction.
Qed.

(** The masks and shifts of the getters select the documented bits. *)
Lemma getter_field (s : setting) (b : Z) :
  Spec.byte b ->
  match s with
  | PressureOversampling => Z.land b 0x07
  | TemperatureOversampling => Z.land (Z.shiftr b 3) 0x07
  | FilterCoefficient => Z.land (Z.shiftr b 1) 0x07
  end = field s b.
Proof.
  intros Hb. apply Z.eqb_eq. revert b Hb.
  destruct s; apply forall_bytes; vm_compute; reflexivity.
Qed.

Lemma field_range (s : setting) (b : Z) : 0 <= field s b < 8.
Proof.
  destruct s; unfold field, Spec.bits; apply Z.mod_pos_bound; reflexivity.
Qed.

Section Configuration.

Context {Dev : Type} {bus : Transport Dev}.
Implicit Types d : Dev.

(** What a getter does with the byte it reads. *)
Lemma getter_run (s : setting) d d1 b :
  byte_read (register_of s) d d1 b -> Spec.byte b ->
  yields (getter s) d d1
    (match getitem (legal s) (field s b) with
     | Some v => inr v
     | None => inl IndexError
     end).
Proof.
  intros Hr Hb. pose proof (getter_field s b Hb) as Hf.
  destruct s; cbn [getter register_of legal] in *;
    (eapply yields_bind; [apply yields_read_byte, Hr |]);
    rewrite Hf; unfold item;
    match goal with
    | |- context [getitem ?t ?i] => destruct (getitem t i)
    end; (apply yields_ret || apply yields_raise).
Qed.

(** What the oversampling setters write back. *)
Lemma set_pressure_run d d1 b v i :
  byte_read _REGISTER_OSR d d1 b -> index v _OSR_SETTINGS = Some i ->
  In v _OSR_SETTINGS ->
  yields (set_pressure_oversampling v) d
    (write_register_byte _REGISTER_OSR (Z.lor (Z.land b 0xF8) i) d1)
    (inr tt).
Proof.
  intros Hr Hi Hin. unfold set_pressure_oversampling.
  apply contains_In in Hin. rewrite Hin. cbn [negb].
  eapply yields_bind; [apply yields_read_byte, Hr |].
  rewrite Hi. eapply yields_bind; [apply yields_ret |].
  apply yields_write.
Qed.

Lemma set_temperature_run d d1 b v i :
  byte_read _REGISTER_OSR d d1 b -> index v _OSR_SETTINGS = Some i ->
  In v _OSR_SETTINGS ->
  yields (set_temperature_oversampling v) d
    (write_register_byte _REGISTER_OSR
       (Z.lor (Z.land b 0xC7) (Z.shiftl i 3)) d1)
    (inr tt).
Proof.
  intros Hr Hi Hin. unfold set_temperature_oversampling.
  apply contains_In in Hin. rewrite Hin. cbn [negb].
  eapply yields_bind; [apply yields_read_byte, Hr |].
  rewrite Hi. eapply yields_bind; [apply yields_ret |].
  apply yields_write.
Qed.

(** The filter setter writes without reading. *)
Lemma set_filter_run d v i :
  index v _IIR_SETTINGS = Some i -> In v _IIR_SETTINGS ->
  yields (set_filter_coefficient v) d
    (write_register_byte _REGISTER_CONFIG (Z.shiftl i 1) d) (inr tt).
Proof.
  intros Hi Hin. unfold set_filter_coefficient.
  apply contains_In in Hin. rewrite Hin. cbn [negb].
  rewrite Hi. eapply yields_bind; [apply yields_ret |].
  apply yields_write.
Qed.

End Configuration.

(** Every byte merges well with every table position. *)
Lemma written_well_merged (b i : Z) :
  Spec.byte b -> 0 <= i < 8 -> well_merged b i = true.
Proof.
  intros Hb Hi. revert b Hb.
  assert (H : i = 0 \/ i = 1 \/ i = 2 \/ i = 3 \/ i = 4 \/ i = 5 \/ i = 6
              \/ i = 7) by lia.
  repeat (destruct H as [-> | H]); try subst i;
    apply forall_bytes; vm_compute; reflexivity.
Qed.

Lemma written_facts (b i : Z) :
  Spec.byte b -> 0 <= i < 8 ->
  (field PressureOversampling (written PressureOversampling b i) = i
   /\ Spec.outside 2 0 (written PressureOversampling b i)
      = Spec.outside 2 0 b
   /\ field TemperatureOversampling (written PressureOversampling b i)
      = field TemperatureOversampling b)
  /\ (field TemperatureOversampling (written TemperatureOversampling b i) = i
      /\ Spec.outside 5 3 (written TemperatureOversampling b i)
         = Spec.outside 5 3 b
      /\ field PressureOversampling (written TemperatureOversampling b i)
         = field PressureOversampling b)
  /\ (field FilterCoefficient (written FilterCoefficient b i) = i
      /\ Spec.outside 3 1 (written FilterCoefficient b i) = 0)
  /\ (forall s, Spec.byte (written s b i)).
Proof.
  intros Hb Hi. pose proof (written_well_merged b i Hb Hi) as H.
  unfold well_merged in H. repeat rewrite andb_true_iff in H.
  repeat match goal with
         | H : _ /\ _ |- _ => destruct H
         | H : (_ =? _) = true |- _ => apply Z.eqb_eq in H
         | H : (_ <=? _) = true |- _ => apply Z.leb_le in H
         | H : (_ <? _) = true |- _ => apply Z.ltb_lt in H
         end.
  repeat split; try assumption; destruct s; assumption.
Qed.

Section ConfigurationClaims.

Context {Dev : Type} {bus : Transport Dev}.
Implicit Types d : Dev.

(** A setter called with a legal value writes [written] to its register:
    after one read of that register for the oversampling properties,
    with no read at all for the filter coefficient. *)
Lemma setter_run (s : setting) d d1 b v i :
  byte_read (register_of s) d d1 b ->
  In v (legal s) -> index v (legal s) = Some i ->
  yields (setter s v) d
    (write_register_byte (register_of s) (written s b i)
       (match s with FilterCoefficient => d | _ => d1 end))
    (inr tt).
Proof.
  intros Hr Hin Hi. destruct s; cbn [setter register_of written legal] in *.
  - now apply set_pressure_run.
  - now apply set_temperature_run.
  - now apply set_filter_run.
Qed.

End ConfigurationClaims.

(** ** The register-file device as a transport *)

Lemma land_255_byte (x : Z) : Spec.byte (Z.land x 0xFF).
Proof.
  unfold Spec.byte. change 0xFF with (Z.ones 8).
  rewrite Z.land_ones by lia. apply Z.mod_pos_bound. reflexivity.
Qed.

Lemma land_255_id (v : Z) : Spec.byte v -> Z.land v 0xFF = v.
Proof.
  intros Hv. change 0xFF with (Z.ones 8).
  rewrite Z.land_ones by lia. apply Z.mod_small. exact Hv.
Qed.

Lemma sensor_byte_read (r : Z) (d : sensor) :
  (r =? _REGISTER_STATUS) && negb (Nat.eqb (busy d) 0) = false ->
  byte_read r d
    {| regs := regs d; busy := busy d; bus_log := Read r 1 :: bus_log d |}
    (Z.land (regs d r) 0xFF).
Proof.
  intros H. unfold byte_read. cbn. unfold sensor_read. rewrite H. cbn.
  now rewrite Z.add_0_r.
Qed.

Lemma sensor_reads_bytes : reads_bytes (Dev := sensor).
Proof.
  intros r d. unfold byte_read. cbn. unfold sensor_read.
  destruct ((r =? _REGISTER_STATUS) && negb (Nat.eqb (busy d) 0)); cbn;
    do 2 eexists; (split; [reflexivity |]).
  - pose proof (land_255_byte (regs d (r + 0))) as Hb.
    pose proof (forall_bytes
                  (fun y => (0 <=? Z.land y 0x9F) && (Z.land y 0x9F <? 256))
                  eq_refl _ Hb) as H.
    apply andb_true_iff in H. destruct H as [H1 H2].
    split; [now apply Z.leb_le | now apply Z.ltb_lt].
  - apply land_255_byte.
Qed.

Lemma sensor_holds_last_write (r : Z) :
  r <> _REGISTER_STATUS -> holds_last_write (Dev := sensor) r.
Proof.
  intros Hr d v Hv. eexists.
  assert (E : (r =? _REGISTER_STATUS)
              && negb (Nat.eqb (busy (sensor_write r v d)) 0) = false).
  { apply Z.eqb_neq in Hr. now rewrite Hr. }
  pose proof (sensor_byte_read r (sensor_write r v d) E) as H.
  cbn in H. rewrite Z.eqb_refl in H.
  rewrite (land_255_id v Hv), (land_255_id v Hv) in H. exact H.
Qed.

(** ** Claims about the configuration properties *)

(** C4, as the code has it: for every legal filter coefficient, on every
    transport and whatever the CONFIG register holds, the setter performs
    one write and no read; the byte written carries the table index in
    bits [3:1] and zero in every other bit, so the register's previous
    value is not merged in. *)
Theorem filter_setter_writes_index_only (coef : Z) :
  In coef _IIR_SETTINGS ->
  exists i,
    index coef _IIR_SETTINGS = Some i
    /\ Spec.bits 3 1 (Z.shiftl i 1) = i
    /\ Spec.outside 3 1 (Z.shiftl i 1) = 0
    /\ forall (Dev : Type) (bus : Transport Dev) (d : Dev),
         yields (set_filter_coefficient coef) d
           (write_register_byte _REGISTER_CONFIG (Z.shiftl i 1) d) (inr tt).
Proof.
  intros Hin.
  destruct (index_legal FilterCoefficient coef Hin) as (i & Hi & _ & Hr).
  cbn in Hr. exists i.
  assert (Hz : Spec.byte 0) by (unfold Spec.byte; lia).
  destruct (written_facts 0 i Hz ltac:(lia)) as (_ & _ & (Hf & Ho) & _).
  cbn [written field] in Hf, Ho.
  split; [exact Hi |]. split; [exact Hf |]. split; [exact Ho |].
  intros Dev bus d. now apply set_filter_run.
Qed.

Lemma filter_setter_writes_index_only_witness :
  exists i,
    index 2 _IIR_SETTINGS = Some i
    /\ Spec.bits 3 1 (Z.shiftl i 1) = i
    /\ Spec.outside 3 1 (Z.shiftl i 1) = 0
    /\ forall (Dev : Type) (bus : Transport Dev) (d : Dev),
         yields (set_filter_coefficient 2) d
           (write_register_byte _REGISTER_CONFIG (Z.shiftl i 1) d) (inr tt).
Proof.
  apply (filter_setter_writes_index_only 2). cbn. right. left. reflexivity.
Defined.

(** C4, as stated, fails: with CONFIG holding 0xFF, setting the legal
    coefficient 2 issues a single write of the byte 2 and no read, and bits
    outside [3:1] of the register are cleared instead of preserved. *)
Lemma filter_setter_clobbers_config :
  exists d',
    In 2 _IIR_SETTINGS
    /\ yields (set_filter_coefficient 2)
         (sensor_with [(_REGISTER_CONFIG, 0xFF)] 0) d' (inr tt)
    /\ bus_log d' = [Write _REGISTER_CONFIG 2]
    /\ Spec.bits 3 1 (regs d' _REGISTER_CONFIG) = 1
    /\ Spec.outside 3 1 (regs d' _REGISTER_CONFIG) = 0
    /\ Spec.outside 3 1 0xFF = 0xF1.
Proof.
  eexists. split; [cbn; auto |]. split.
  - apply (set_filter_run (bus := sensor_bus) _ 2 1);
      [reflexivity | cbn; auto].
  - split; [reflexivity |]. split; [reflexivity |].
    split; reflexivity.
Qed.

(** C5: for every byte the OSR register holds and every legal
    oversampling value, the pressure setter writes back a byte whose
    temperature field (bits [5:3]) is the one read, and the temperature
    setter one whose pressure field (bits [2:0]) is the one read. *)
Theorem oversampling_setters_preserve_other_field
    {Dev : Type} {bus : Transport Dev} (d d1 : Dev) (b v : Z) :
  byte_read _REGISTER_OSR d d1 b -> Spec.byte b -> In v _OSR_SETTINGS ->
  (exists w,
      yields (set_pressure_oversampling v) d
        (write_register_byte _REGISTER_OSR w d1) (inr tt)
      /\ field TemperatureOversampling w = field TemperatureOversampling b)
  /\ (exists w,
         yields (set_temperature_oversampling v) d
           (write_register_byte _REGISTER_OSR w d1) (inr tt)
         /\ field PressureOversampling w = field PressureOversampling b).
Proof.
  intros Hr Hb Hin.
  destruct (index_legal PressureOversampling v Hin) as (i & Hi & _ & Hlt).
  cbn in Hlt. cbn [legal] in Hi.
  destruct (written_facts b i Hb ltac:(lia))
    as ((_ & _ & Hp) & (_ & _ & Ht) & _).
  split; eexists; (split; [| eassumption]).
  - now apply set_pressure_run.
  - now apply set_temperature_run.
Qed.

Lemma oversampling_setters_preserve_other_field_witness :
  let d := sensor_with [(_REGISTER_OSR, 0x2B)] 0 in
  let d1 := {| regs := regs d; busy := 0;
               bus_log := [Read _REGISTER_OSR 1] |} in
  (exists w,
      yields (set_pressure_oversampling 8) d
        (write_register_byte _REGISTER_OSR w d1) (inr tt)
      /\ field TemperatureOversampling w = field TemperatureOversampling 0x2B)
  /\ (exists w,
         yields (set_temperature_oversampling 8) d
           (write_register_byte _REGISTER_OSR w d1) (inr tt)
         /\ field PressureOversampling w = field PressureOversampling 0x2B).
Proof.
  intros d d1.
  apply (oversampling_setters_preserve_other_field d d1 0x2B 8).
  - reflexivity.
  - unfold Spec.byte. lia.
  - cbn. auto.
Defined.

(** C6: on a transport whose registers deliver a byte and hold the last
    byte written, reading a configuration property right after setting it
    to a legal value returns that value: oversampling over
    {1,2,4,8,16,32}, filter coefficient over {0,2,4,8,16,32,64,128}. *)
Theorem setter_getter_round_trip
    {Dev : Type} {bus : Transport Dev} (s : setting) (v : Z) (d : Dev) :
  reads_bytes -> holds_last_write (register_of s) -> In v (legal s) ->
  exists d', yields (bind (setter s v) (fun _ => getter s)) d d' (inr v).
Proof.
  intros Hreads Hlast Hin.
  destruct (Hreads (register_of s) d) as (d1 & b & Hr & Hb).
  destruct (index_legal s v Hin) as (i & Hi & Hget & Hlt).
  assert (Hi8 : 0 <= i < 8) by (destruct s; cbn in Hlt; lia).
  destruct (written_facts b i Hb Hi8) as (Hp & Ht & Hf & Hbyte).
  pose proof (setter_run s d d1 b v i Hr Hin Hi) as Hset.
  destruct (Hlast (match s with FilterCoefficient => d | _ => d1 end)
              (written s b i) (Hbyte s)) as (d' & Hr').
  exists d'. eapply yields_bind; [exact Hset |].
  pose proof (getter_run s _ _ _ Hr' (Hbyte s)) as Hg.
  replace (field s (written s b i)) with i in Hg.
  - now rewrite Hget in Hg.
  - destruct s; [destruct Hp as [-> _] | destruct Ht as [-> _]
                 | destruct Hf as [-> _]]; reflexivity.
Qed.

Lemma setter_getter_round_trip_witness :
  exists d',
    yields (bind (setter TemperatureOversampling 16)
              (fun _ => getter TemperatureOversampling))
      (sensor_with [(_REGISTER_OSR, 0x02)] 0) d' (inr 16).
Proof.
  apply (setter_getter_round_trip TemperatureOversampling 16).
  - apply sensor_reads_bytes.
  - apply sensor_holds_last_write. discriminate.
  - cbn. auto 10.
Defined.

(** C7: a value outside the legal set makes each setter end with
    ValueError without any bus transaction: the setter's tree is the raise
    alone, so on every transport the device is left as it was, and a getter
    called afterwards runs, and answers, as it would have before. *)
Theorem illegal_value_rejected (s : setting) (v : Z) :
  ~ In v (legal s) ->
  setter s v = raise (rejection s)
  /\ forall (Dev : Type) (bus : Transport Dev) (d : Dev),
       yields (setter s v) d d (inl (rejection s))
       /\ forall d' r,
            yields (getter s) d d' r ->
            exists d0,
              yields (setter s v) d d0 (inl (rejection s))
              /\ yields (getter s) d0 d' r.
Proof.
  intros Hout.
  assert (E : setter s v = raise (rejection s)).
  { apply contains_not_In in Hout.
    destruct s; cbn [setter legal rejection] in *;
      [unfold set_pressure_oversampling | unfold set_temperature_oversampling
       | unfold set_filter_coefficient];
      now rewrite Hout. }
  split; [exact E |].
  intros Dev bus d. rewrite E.
  split; [apply yields_raise |].
  intros d' r Hg. exists d. split; [apply yields_raise | exact Hg].
Qed.

Lemma illegal_value_rejected_witness :
  let d := sensor_with [(_REGISTER_OSR, 0x0B)] 0 in
  ~ In 3 (legal PressureOversampling)
  /\ yields (setter PressureOversampling 3) d d (inl osr_error)
  /\ bus_log d = [].
Proof.
  intros d.
  assert (H : ~ In 3 (legal PressureOversampling)) by (cbn; lia).
  split; [exact H |]. split; [| reflexivity].
  apply (proj2 (illegal_value_rejected PressureOversampling 3 H)).
Defined.

(** C10, as the code has it: for every byte the OSR register holds, an
    oversampling getter returns the table entry at its 3-bit field when the
    field is at most 5, and raises IndexError when the field is 6 or 7,
    which lie outside the 6-entry table. *)
Theorem oversampling_getter_defined_iff
    {Dev : Type} {bus : Transport Dev} (s : setting) (d d1 : Dev) (b : Z) :
  s <> FilterCoefficient ->
  byte_read _REGISTER_OSR d d1 b -> Spec.byte b ->
  (field s b <= 5 ->
   exists v, getitem _OSR_SETTINGS (field s b) = Some v
             /\ In v _OSR_SETTINGS
             /\ yields (getter s) d d1 (inr v))
  /\ (6 <= field s b -> yields (getter s) d d1 (inl IndexError)).
Proof.
  intros Hs Hr Hb.
  assert (Hreg : register_of s = _REGISTER_OSR)
    by (destruct s; [reflexivity | reflexivity | contradiction]).
  assert (Hleg : legal s = _OSR_SETTINGS)
    by (destruct s; [reflexivity | reflexivity | contradiction]).
  rewrite <- Hreg in Hr. pose proof (getter_run s d d1 b Hr Hb) as Hg.
  rewrite Hleg in Hg. pose proof (field_range s b) as Hf.
  assert (Hk : field s b = 0 \/ field s b = 1 \/ field s b = 2
               \/ field s b = 3 \/ field s b = 4 \/ field s b = 5
               \/ field s b = 6 \/ field s b = 7) by lia.
  split; intros Hle;
    repeat (destruct Hk as [Hk | Hk]; [rewrite Hk in *; try lia |]);
    try (rewrite Hk in *; try lia);
    cbn in Hg; try exact Hg;
    (eexists; split; [reflexivity | split; [cbn; auto 10 | exact Hg]]).
Qed.

Lemma oversampling_getter_defined_iff_witness :
  let d := sensor_with [(_REGISTER_OSR, 0x1A)] 0 in
  let d1 := {| regs := regs d; busy := 0;
               bus_log := [Read _REGISTER_OSR 1] |} in
  (field TemperatureOversampling 0x1A <= 5 ->
   exists v, getitem _OSR_SETTINGS (field TemperatureOversampling 0x1A)
             = Some v
             /\ In v _OSR_SETTINGS
             /\ yields (getter TemperatureOversampling) d d1 (inr v))
  /\ (6 <= field TemperatureOversampling 0x1A ->
      yields (getter TemperatureOversampling) d d1 (inl IndexError)).
Proof.
  intros d d1.
  apply (oversampling_getter_defined_iff TemperatureOversampling d d1 0x1A).
  - discriminate.
  - reflexivity.
  - unfold Spec.byte. lia.
Defined.

(** C10, as stated, fails: with OSR holding 0x07 the pressure field is 7,
    the subscript is past the end of the 6-entry table, and the pressure
    oversampling getter raises IndexError instead of returning an entry. *)
Lemma oversampling_getter_index_out_of_range :
  exists d',
    Spec.byte 0x07
    /\ byte_read _REGISTER_OSR (sensor_with [(_REGISTER_OSR, 0x07)] 0) d' 0x07
    /\ field PressureOversampling 0x07 = 7
    /\ Z.of_nat (List.length _OSR_SETTINGS) = 6
    /\ yields pressure_oversampling
         (sensor_with [(_REGISTER_OSR, 0x07)] 0) d' (inl IndexError)
    /\ forall d'' v,
         ~ yields pressure_oversampling
             (sensor_with [(_REGISTER_OSR, 0x07)] 0) d'' (inr v).
Proof.
  eexists.
  assert (Hb : Spec.byte 0x07) by (unfold Spec.byte; lia).
  assert (Hr : byte_read _REGISTER_OSR
                 (sensor_with [(_REGISTER_OSR, 0x07)] 0)
                 {| regs := regs_of [(_REGISTER_OSR, 0x07)]; busy := 0;
                    bus_log := [Read _REGISTER_OSR 1] |} 0x07)
    by reflexivity.
  pose proof (getter_run PressureOversampling _ _ _ Hr Hb) as Hg.
  cbn in Hg.
  split; [exact Hb |]. split; [exact Hr |].
  split; [reflexivity |]. split; [reflexivity |]. split; [exact Hg |].
  intros d'' v Hv.
  destruct (yields_det _ _ _ _ _ _ Hg Hv) as [_ Habs]. discriminate.
Qed.

(** ** Measurement, calibration and construction *)

Section Measurement.

Context {libm : Libm} {Dev : Type} {bus : Transport Dev}.
Implicit Types d : Dev.

Lemma yields_pow (x y v : float) d :
  fpow x y = inr v -> yields (pow x y) d d (inr v).
Proof. intros H. unfold pow. rewrite H. apply yields_pure. Qed.

Lemma yields_div (x y : float) d :
  PrimFloat.eqb y 0 = false -> yields (div x y) d d (inr (x / y)%float).
Proof.
  intros H. unfold div, truediv. rewrite H. apply yields_pure.
Qed.

Lemma yields_div_zero (x y : float) d :
  PrimFloat.eqb y 0 = true -> yields (div x y) d d (inl ZeroDivisionError).
Proof.
  intros H. unfold div, truediv. rewrite H. apply yields_pure.
Qed.

(** One measurement: trigger, poll, burst read, compensate. *)
Lemma read_run (self : BMP3XX) d d1 d2 (p0 p1 p2 t0 t1 t2 : Z)
    (s2 s3 a2 a3 : float) :
  polls (_wait_time self)
    (write_register_byte _REGISTER_CONTROL 0x13 d) d1 ->
  read_register _REGISTER_PRESSUREDATA 6 d1
  = (d2, [p0; p1; p2; t0; t1; t2]) ->
  Forall Spec.byte [p0; p1; p2; t0; t1; t2] ->
  Spec.powers (Spec.temperature (_temp_calib self) (Spec.le24 t0 t1 t2))
    (Spec.le24 p0 p1 p2) s2 s3 a2 a3 ->
  yields (_read self) d d2
    (inr (Spec.pressure_raw (_pressure_calib self)
            (Spec.temperature (_temp_calib self) (Spec.le24 t0 t1 t2))
            (Spec.le24 p0 p1 p2) s2 s3 a2 a3,
          Spec.temperature (_temp_calib self) (Spec.le24 t0 t1 t2))).
Proof.
  intros Hpoll Hread Hbytes (Hs2 & Hs3 & Ha2 & Ha3).
  repeat match goal with
         | H : Forall _ (_ :: _) |- _ => inversion H; subst; clear H
         end.
  unfold _read.
  eapply yields_bind; [apply yields_write |].
  eapply yields_bind; [apply yields_poll, Hpoll |].
  eapply yields_bind; [apply yields_read, Hread |].
  do 3 (eapply yields_bind; [apply yields_item; reflexivity |]).
  rewrite adc_le24 by assumption.
  do 3 (eapply yields_bind; [apply yields_item; reflexivity |]).
  rewrite adc_le24 by assumption.
  destruct (_temp_calib self) as [[T1 T2] T3].
  destruct (_pressure_calib self)
    as [[[[[[[[[[P1 P2] P3] P4] P5] P6] P7] P8] P9] P10] P11].
  cbn [Spec.temperature Spec.pressure_raw] in *.
  eapply yields_bind; [apply yields_pow, Hs2 |].
  eapply yields_bind; [apply yields_pow, Hs3 |].
  eapply yields_bind; [apply yields_pow, Hs2 |].
  eapply yields_bind; [apply yields_pow, Hs3 |].
  eapply yields_bind; [apply yields_pow, Ha2 |].
  eapply yields_bind; [apply yields_pow, Ha3 |].
  rewrite (float_mul_comm a2). apply yields_ret.
Qed.

End Measurement.

Section Calibration.

Context {libm : Libm} {Dev : Type} {bus : Transport Dev}.
Implicit Types d : Dev.

Lemma scaled_run (c k : Z) d :
  Spec.exact_pow2 -> In k Spec.scale_exponents ->
  yields (scaled c (of_int k)) d d (inr (of_int c / Spec.pow2 k)%float).
Proof.
  intros Hpow Hk. unfold scaled.
  eapply yields_bind; [apply yields_pow, (Hpow k Hk) |].
  apply yields_div, pow2_nonzero, Hk.
Qed.

Lemma offset_scaled_run (c k : Z) d :
  Spec.exact_pow2 -> In k Spec.scale_exponents ->
  yields (offset_scaled c (of_int k)) d d
    (inr ((of_int c - Spec.pow2 14) / Spec.pow2 k)%float).
Proof.
  intros Hpow Hk. unfold offset_scaled.
  eapply yields_bind;
    [apply yields_pow, (Hpow 14); cbn; auto 20 |].
  eapply yields_bind; [apply yields_pow, (Hpow k Hk) |].
  apply yields_div, pow2_nonzero, Hk.
Qed.

(** The format string splits a 21-byte block into its fourteen fields. *)
Lemma unpack_block (b0 b1 b2 b3 b4 b5 b6 b7 b8 b9 b10 b11 b12 b13 b14
                    b15 b16 b17 b18 b19 b20 : Z) :
  Forall Spec.byte [b0; b1; b2; b3; b4; b5; b6; b7; b8; b9; b10; b11; b12;
                    b13; b14; b15; b16; b17; b18; b19; b20] ->
  struct_unpack "<HHbhhbbHHbbhbb"
    [b0; b1; b2; b3; b4; b5; b6; b7; b8; b9; b10; b11; b12; b13; b14;
     b15; b16; b17; b18; b19; b20]
  = Some [Spec.unsigned16 b0 b1; Spec.unsigned16 b2 b3; Spec.signed8 b4;
          Spec.signed16 b5 b6; Spec.signed16 b7 b8; Spec.signed8 b9;
          Spec.signed8 b10; Spec.unsigned16 b11 b12;
          Spec.unsigned16 b13 b14; Spec.signed8 b15; Spec.signed8 b16;
          Spec.signed16 b17 b18; Spec.signed8 b19; Spec.signed8 b20].
Proof.
  intros Hb.
  repeat match goal with
         | H : Forall _ (_ :: _) |- _ => inversion H; subst; clear H
         end.
  rewrite <- !from_bytes_le_2, <- !to_signed_2, <- !to_signed_1
    by assumption.
  reflexivity.
Qed.

(** Reading the calibration block stores the documented coefficients. *)
Lemma read_coefficients_run d d1 (block : list Z) c :
  Spec.exact_pow2 ->
  read_register _REGISTER_CAL_DATA 21 d = (d1, block) ->
  Forall Spec.byte block ->
  Spec.coefficients block = Some c ->
  yields _read_coefficients d d1 (inr c).
Proof.
  intros Hpow Hread Hbytes Hc.
  do 22 (destruct block as [| ? block]; try discriminate Hc).
  cbn [Spec.coefficients] in Hc. injection Hc as <-.
  unfold _read_coefficients.
  eapply yields_bind; [apply yields_read, Hread |].
  rewrite (unpack_block _ _ _ _ _ _ _ _ _ _ _ _ _ _ _ _ _ _ _ _ _ Hbytes).
  eapply yields_bind; [apply yields_ret |].
  repeat (eapply yields_bind; [apply yields_item; reflexivity |];
          eapply yields_bind;
          [first [ apply (scaled_run _ (-8)); [assumption | cbn; auto 20]
                 | apply (scaled_run _ (-3)); [assumption | cbn; auto 20]
                 | apply (scaled_run _ 30); [assumption | cbn; auto 20]
                 | apply (scaled_run _ 48); [assumption | cbn; auto 20]
                 | apply (scaled_run _ 32); [assumption | cbn; auto 20]
                 | apply (scaled_run _ 37); [assumption | cbn; auto 20]
                 | apply (scaled_run _ 6); [assumption | cbn; auto 20]
                 | apply (scaled_run _ 8); [assumption | cbn; auto 20]
                 | apply (scaled_run _ 15); [assumption | cbn; auto 20]
                 | apply (scaled_run _ 65); [assumption | cbn; auto 20]
                 | apply (offset_scaled_run _ 20);
                   [assumption | cbn; auto 20]
                 | apply (offset_scaled_run _ 29);
                   [assumption | cbn; auto 20] ] |]).
  apply yields_ret.
Qed.

End Calibration.

(** ** Claims about measurement *)

(** C1: for every calibration triple (T1, T2, T3) and every 24-bit
    temperature ADC value (the little-endian bytes [3..5] of the burst
    read), once the status poll ends with both conversions complete
    ([polls]: every read that found the device busy was followed by a
    [time.sleep] that accepted the wait time) the [temperature] property
    returns [pd2 + pd1 * pd1 * T3] with [pd1 = adc_t - T1] and
    [pd2 = pd1 * T2], unscaled, and [_read] returns it as its second
    component.  The powers of the pressure polynomial, computed in the
    same call, are assumed to be floats ([**] raising there would end the
    call with that exception). *)
Theorem temperature_compensated
    {libm : Libm} {Dev : Type} {bus : Transport Dev}
    (self : BMP3XX) (d d1 d2 : Dev) (p0 p1 p2 t0 t1 t2 : Z)
    (s2 s3 a2 a3 : float) :
  polls (_wait_time self)
    (write_register_byte _REGISTER_CONTROL 0x13 d) d1 ->
  read_register _REGISTER_PRESSUREDATA 6 d1
  = (d2, [p0; p1; p2; t0; t1; t2]) ->
  Forall Spec.byte [p0; p1; p2; t0; t1; t2] ->
  Spec.powers (Spec.temperature (_temp_calib self) (Spec.le24 t0 t1 t2))
    (Spec.le24 p0 p1 p2) s2 s3 a2 a3 ->
  yields (temperature self) d d2
    (inr (Spec.temperature (_temp_calib self) (Spec.le24 t0 t1 t2)))
  /\ exists raw,
       yields (_read self) d d2
         (inr (raw, Spec.temperature (_temp_calib self)
                      (Spec.le24 t0 t1 t2))).
Proof.
  intros Hpoll Hread Hbytes Hpow.
  pose proof (read_run self d d1 d2 _ _ _ _ _ _ _ _ _ _
                Hpoll Hread Hbytes Hpow) as Hrun.
  split.
  - unfold temperature. eapply yields_bind; [exact Hrun |]. apply yields_ret.
  - eexists. exact Hrun.
Qed.

(** C2: for every 6-byte burst read (bytes [0..2] the little-endian
    pressure ADC value, bytes [3..5] the temperature one) and every
    pressure coefficients P1..P11, the [pressure] property returns
    [(po1 + po2 + pd4) / 100], the three terms being the documented
    polynomials in the temperature just computed and in adc_p, with
    [t2, t3, a2, a3] the values [**] gives for the squares and cubes.  The
    burst read is the one made once the status poll has ended with both
    conversions complete ([polls], as for C1: a wait time that
    [time.sleep] refuses ends the call with that error at the first read
    that finds the device busy). *)
Theorem pressure_compensated
    {libm : Libm} {Dev : Type} {bus : Transport Dev}
    (self : BMP3XX) (d d1 d2 : Dev) (p0 p1 p2 t0 t1 t2 : Z)
    (s2 s3 a2 a3 : float) :
  polls (_wait_time self)
    (write_register_byte _REGISTER_CONTROL 0x13 d) d1 ->
  read_register _REGISTER_PRESSUREDATA 6 d1
  = (d2, [p0; p1; p2; t0; t1; t2]) ->
  Forall Spec.byte [p0; p1; p2; t0; t1; t2] ->
  Spec.powers (Spec.temperature (_temp_calib self) (Spec.le24 t0 t1 t2))
    (Spec.le24 p0 p1 p2) s2 s3 a2 a3 ->
  yields (pressure self) d d2
    (inr (Spec.pressure_raw (_pressure_calib self)
            (Spec.temperature (_temp_calib self) (Spec.le24 t0 t1 t2))
            (Spec.le24 p0 p1 p2) s2 s3 a2 a3 / 100)%float).
Proof.
  intros Hpoll Hread Hbytes Hpow.
  pose proof (read_run self d d1 d2 _ _ _ _ _ _ _ _ _ _
                Hpoll Hread Hbytes Hpow) as Hrun.
  unfold pressure. eapply yields_bind; [exact Hrun |].
  cbn [fst]. apply (yields_div _ (of_int 100)). reflexivity.
Qed.

(** The worked example, run. *)

Lemma example_exact_pow2 : Spec.exact_pow2 (libm := example_libm).
Proof.
  intros k Hk. cbn in Hk.
  repeat (destruct Hk as [<- | Hk]; [vm_compute; reflexivity |]).
  contradiction.
Qed.

Lemma example_block_bytes : Forall Spec.byte example_block.
Proof. repeat constructor; unfold Spec.byte; lia. Qed.

Lemma example_measurement :
  exists d1 d2,
    polls 0.002
      (write_register_byte _REGISTER_CONTROL 0x13 example_device) d1
    /\ read_register _REGISTER_PRESSUREDATA 6 d1
       = (d2, [0xA0; 0x2E; 0x63; 0xE0; 0xA5; 0x7E])
    /\ bus_log d2
       = [Read _REGISTER_PRESSUREDATA 6; Read _REGISTER_STATUS 1;
          Read _REGISTER_STATUS 1; Write _REGISTER_CONTROL 0x13].
Proof.
  do 2 eexists. split; [| split].
  - eapply polls_busy; [reflexivity | discriminate | reflexivity |].
    eapply polls_ready; reflexivity.
  - reflexivity.
  - reflexivity.
Qed.

Lemma example_adc_bytes : Forall Spec.byte [0xA0; 0x2E; 0x63; 0xE0; 0xA5; 0x7E].
Proof. repeat constructor; unfold Spec.byte; lia. Qed.

Lemma example_powers (sea_level : float) :
  exists s2 s3 a2 a3,
    Spec.powers (libm := example_libm)
      (Spec.temperature (_temp_calib (example_self sea_level))
         (Spec.le24 0xE0 0xA5 0x7E))
      (Spec.le24 0xA0 0x2E 0x63) s2 s3 a2 a3.
Proof.
  do 4 eexists. unfold Spec.powers.
  split; [| split; [| split]]; vm_compute; reflexivity.
Qed.

Lemma example_pressure (sea_level : float) :
  exists d2 p,
    yields (pressure (libm := example_libm) (example_self sea_level))
      example_device d2 (inr p).
Proof.
  destruct example_measurement as (d1 & d2 & Hpoll & Hread & _).
  destruct (example_powers sea_level) as (s2 & s3 & a2 & a3 & Hpow).
  exists d2. eexists. unfold pressure.
  eapply yields_bind;
    [exact (read_run (example_self sea_level) example_device d1 d2
              _ _ _ _ _ _ s2 s3 a2 a3 Hpoll Hread example_adc_bytes Hpow) |].
  apply (yields_div _ (of_int 100)). reflexivity.
Qed.

Lemma temperature_compensated_witness :
  exists d2 t,
    yields (temperature (libm := example_libm) (example_self 1013.25))
      example_device d2 (inr t).
Proof.
  destruct example_measurement as (d1 & d2 & Hpoll & Hread & _).
  destruct (example_powers 1013.25) as (s2 & s3 & a2 & a3 & Hpow).
  exists d2. eexists.
  apply (proj1 (temperature_compensated (example_self 1013.25)
                  example_device d1 d2 _ _ _ _ _ _ s2 s3 a2 a3
                  Hpoll Hread example_adc_bytes Hpow)).
Defined.

Lemma pressure_compensated_witness :
  exists d2 p,
    yields (pressure (libm := example_libm) (example_self 1013.25))
      example_device d2 (inr p).
Proof.
  destruct example_measurement as (d1 & d2 & Hpoll & Hread & _).
  destruct (example_powers 1013.25) as (s2 & s3 & a2 & a3 & Hpow).
  exists d2. eexists.
  apply (pressure_compensated (example_self 1013.25)
           example_device d1 d2 _ _ _ _ _ _ s2 s3 a2 a3
           Hpoll Hread example_adc_bytes Hpow).
Defined.

(** ** Claims about calibration and construction *)

Lemma coefficients_defined (block : list Z) :
  List.length block = 21%nat -> exists c, Spec.coefficients block = Some c.
Proof.
  intros H. do 22 (destruct block as [| ? block]; try discriminate H).
  eexists. reflexivity.
Qed.

(** C3: for every 21-byte calibration block, [_read_coefficients] stores
    the coefficients [Spec.coefficients] lists: the fields unsigned16,
    unsigned16, signed8, signed16, signed16, signed8, signed8, unsigned16,
    unsigned16, signed8, signed8, signed16, signed8, signed8 in order,
    little-endian, each divided by its power of two (2^-8, 2^30, 2^48 for
    T1..T3; 2^20, 2^29, 2^32, 2^37, 2^-3, 2^6, 2^8, 2^15, 2^48, 2^48, 2^65
    for P1..P11), P1 and P2 after subtracting 2^14.  The powers of two are
    the exact ones, which is what [**] is assumed to give for them. *)
Theorem coefficients_decoded
    {libm : Libm} {Dev : Type} {bus : Transport Dev}
    (d d1 : Dev) (block : list Z) :
  Spec.exact_pow2 ->
  read_register _REGISTER_CAL_DATA 21 d = (d1, block) ->
  List.length block = 21%nat ->
  Forall Spec.byte block ->
  exists c,
    Spec.coefficients block = Some c
    /\ yields _read_coefficients d d1 (inr c).
Proof.
  intros Hpow Hread Hlen Hbytes.
  destruct (coefficients_defined block Hlen) as (c & Hc).
  exists c. split; [exact Hc |].
  now apply read_coefficients_run with block.
Qed.

Lemma example_calibration_read :
  exists d1,
    read_register _REGISTER_CAL_DATA 21 example_device = (d1, example_block).
Proof. eexists. reflexivity. Qed.

Lemma coefficients_decoded_witness :
  exists d1 c,
    Spec.coefficients example_block = Some c
    /\ yields (_read_coefficients (libm := example_libm)) example_device d1
         (inr c).
Proof.
  destruct example_calibration_read as (d1 & Hread).
  exists d1.
  apply (coefficients_decoded (libm := example_libm) example_device d1
           example_block example_exact_pow2 Hread eq_refl
           example_block_bytes).
Defined.

(** C8: whatever byte the chip-ID register delivers at construction, if it
    is 0x50 or 0x60 the constructor goes on to read the 21 calibration
    bytes, write the reset command 0xB6 and return the object with the sea
    level reference 1013.25; for any other byte it ends with RuntimeError
    with the device as the identity read left it, calibration unread and
    no register written. *)
Theorem chip_id_gates_construction
    {libm : Libm} {Dev : Type} {bus : Transport Dev} (d d1 : Dev) (b : Z) :
  byte_read _REGISTER_CHIPID d d1 b ->
  (b = 0x50 \/ b = 0x60 ->
   Spec.exact_pow2 ->
   forall (d2 : Dev) (block : list Z),
     read_register _REGISTER_CAL_DATA 21 d1 = (d2, block) ->
     List.length block = 21%nat ->
     Forall Spec.byte block ->
     exists c,
       Spec.coefficients block = Some c
       /\ yields __init__ d (write_register_byte _REGISTER_CMD 0xB6 d2)
            (inr {| _temp_calib := fst c;
                    _pressure_calib := snd c;
                    sea_level_pressure := 1013.25;
                    _wait_time := 0.002 |}))
  /\ (b <> 0x50 -> b <> 0x60 ->
      yields __init__ d d1
        (inl (RuntimeError "Failed to find BMP3XX! Chip ID " b))).
Proof.
  intros Hid. split.
  - intros Hok Hpow d2 block Hread Hlen Hbytes.
    destruct (coefficients_defined block Hlen) as (c & Hc).
    exists c. split; [exact Hc |].
    unfold __init__.
    eapply yields_bind; [apply yields_read_byte, Hid |].
    replace (contains b [_BMP388_CHIP_ID; _BMP390_CHIP_ID]) with true
      by (destruct Hok as [-> | ->]; reflexivity).
    cbn [negb].
    eapply yields_bind;
      [exact (read_coefficients_run d1 d2 block c Hpow Hread Hbytes Hc) |].
    eapply yields_bind; [apply yields_write |].
    apply yields_ret.
  - intros H1 H2. unfold __init__.
    eapply yields_bind; [apply yields_read_byte, Hid |].
    rewrite contains_not_In; [apply yields_raise |].
    cbn. unfold _BMP388_CHIP_ID, _BMP390_CHIP_ID. lia.
Qed.

Lemma chip_id_gates_construction_witness :
  (exists d' self,
      yields (__init__ (libm := example_libm)) example_device d' (inr self)
      /\ sea_level_pressure self = 1013.25%float
      /\ bus_log d'
         = [Write _REGISTER_CMD 0xB6; Read _REGISTER_CAL_DATA 21;
            Read _REGISTER_CHIPID 1])
  /\ (exists d',
         yields (__init__ (libm := example_libm))
           (sensor_with [(_REGISTER_CHIPID, 0x58)] 0) d'
           (inl (RuntimeError "Failed to find BMP3XX! Chip ID " 0x58))
         /\ bus_log d' = [Read _REGISTER_CHIPID 1]).
Proof.
  split.
  - pose proof
      (proj1 (chip_id_gates_construction (libm := example_libm)
                example_device _ 0x50 eq_refl)
         (or_introl eq_refl) example_exact_pow2 _ example_block
         eq_refl eq_refl example_block_bytes) as (c & _ & Hrun).
    do 2 eexists. split; [exact Hrun |]. split; reflexivity.
  - eexists. split.
    + refine (proj2 (chip_id_gates_construction (libm := example_libm)
                       (sensor_with [(_REGISTER_CHIPID, 0x58)] 0) _ 0x58
                       _) _ _); [reflexivity | discriminate | discriminate].
    + reflexivity.
Defined.

(** ** Claims about altitude *)

Section Inversion.

Context {Dev : Type} {bus : Transport Dev}.
Implicit Types d : Dev.

(** A terminated sequence splits at its first method. *)
Lemma yields_bind_inv {R S : Type} (m : M R) (k : R -> M S) d d2 r :
  yields (bind m k) d d2 r ->
  exists d1 x,
    yields m d d1 x
    /\ match x with
       | inl e => d2 = d1 /\ r = inl e
       | inr a => yields (k a) d1 d2 r
       end.
Proof.
  unfold yields, run, bind. intros H.
  rewrite interp_state_bind in H.
  apply eutt_inv_bind_ret in H. destruct H as ([d1 x] & Hm & Hk).
  exists d1, x. split; [exact Hm |].
  cbn in Hk. destruct x as [e | a]; [| exact Hk].
  rewrite interp_state_ret in Hk. apply eutt_inv_Ret in Hk.
  inversion Hk. auto.
Qed.

Lemma yields_ret_inv {R : Type} (a : R) d d' r :
  yields (ret a) d d' r -> r = inr a.
Proof.
  intros H. now destruct (yields_det _ _ _ _ _ _ (yields_ret a d) H).
Qed.

Lemma yields_raise_inv {R : Type} (e : exn) d d' (r : exn + R) :
  yields (raise e) d d' r -> r = inl e.
Proof.
  intros H. now destruct (yields_det _ _ _ _ _ _ (yields_raise e d) H).
Qed.

(** An object that construction returns has the default reference. *)
Lemma init_sea_level {libm : Libm} d d' (self : BMP3XX) :
  yields __init__ d d' (inr self) ->
  sea_level_pressure self = 1013.25%float.
Proof.
  unfold __init__. intros H.
  apply yields_bind_inv in H. destruct H as (d1 & [e | chip] & _ & H);
    [destruct H; discriminate |].
  destruct (negb (contains chip [_BMP388_CHIP_ID; _BMP390_CHIP_ID])).
  { apply yields_raise_inv in H. discriminate. }
  apply yields_bind_inv in H. destruct H as (d2 & [e | calib] & _ & H);
    [destruct H; discriminate |].
  apply yields_bind_inv in H. destruct H as (d3 & [e | u] & _ & H);
    [destruct H; discriminate |].
  apply yields_ret_inv in H. injection H as ->. reflexivity.
Qed.

End Inversion.

(** C9, as the code has it: construction sets the sea level reference to
    1013.25; for every object (whatever reference [s] its caller has
    assigned) each access to [altitude] performs the pressure read anew,
    and when that read returns [p], [s] is not zero and the power
    [(p / s) ** 0.190284] is the float [y], altitude returns
    [44307.7 * (1 - y)]; when [s] is zero it raises ZeroDivisionError. *)
Theorem altitude_from_fresh_pressure
    {libm : Libm} {Dev : Type} {bus : Transport Dev} :
  (forall (d d' : Dev) (self : BMP3XX),
      yields __init__ d d' (inr self) ->
      sea_level_pressure self = 1013.25%float)
  /\ (forall (self : BMP3XX) (d d' : Dev) (p y : float),
         yields (pressure self) d d' (inr p) ->
         PrimFloat.eqb (sea_level_pressure self) 0 = false ->
         fpow (p / sea_level_pressure self) 0.190284 = inr y ->
         yields (altitude self) d d' (inr (Spec.altitude_m y)))
  /\ (forall (self : BMP3XX) (d d' : Dev) (p : float),
         yields (pressure self) d d' (inr p) ->
         PrimFloat.eqb (sea_level_pressure self) 0 = true ->
         yields (altitude self) d d' (inl ZeroDivisionError)).
Proof.
  split; [intros d d' self; apply init_sea_level |]. split.
  - intros self d d' p y Hp Hs Hy. unfold altitude.
    eapply yields_bind; [exact Hp |].
    eapply yields_bind; [apply yields_div, Hs |].
    eapply yields_bind; [apply yields_pow, Hy |].
    apply yields_ret.
  - intros self d d' p Hp Hs. unfold altitude.
    eapply yields_bind; [exact Hp |].
    apply yields_bind_raise, yields_div_zero, Hs.
Qed.

Lemma altitude_from_fresh_pressure_witness :
  exists d' h,
    yields (altitude (libm := example_libm) (example_self 1013.25))
      example_device d' (inr h).
Proof.
  destruct (example_pressure 1013.25) as (d' & p & Hp).
  exists d'. eexists.
  refine (proj1 (proj2 (altitude_from_fresh_pressure (libm := example_libm)))
            (example_self 1013.25) example_device d' p _ Hp eq_refl _).
  unfold fpow, example_libm, example_pow.
  destruct (integral 0.190284) eqn:E; [vm_compute in E; discriminate |].
  reflexivity.
Defined.

(** C9, as stated, fails: a caller may assign the reference 0, and then
    the division [pressure / sea_level_pressure] raises ZeroDivisionError
    although the pressure read itself returned. *)
Lemma altitude_zero_reference_raises :
  exists d' p,
    sea_level_pressure (example_self 0) = 0%float
    /\ yields (pressure (libm := example_libm) (example_self 0))
         example_device d' (inr p)
    /\ yields (altitude (libm := example_libm) (example_self 0))
         example_device d' (inl ZeroDivisionError).
Proof.
  destruct (example_pressure 0) as (d2 & p & Hp).
  exists d2, p. split; [reflexivity |]. split; [exact Hp |].
  unfold altitude. eapply yields_bind; [exact Hp |].
  eapply yields_bind_raise. apply yields_div_zero. reflexivity.
Qed.

(** ** Loops: an invariant rule *)

Section LoopInvariant.

Context {Dev : Type} {bus : Transport Dev}.
Implicit Types d : Dev.

(** The outcome of a run is its only leaf. *)
Lemma leaf_yields {R : Type} (m : M R) d d' r (x : Dev * (exn + R)) :
  yields m d d' r -> Leaf x (run m d) -> x = (d', r).
Proof.
  unfold yields. intros H L. rewrite H in L.
  now apply Leaf_Ret_inv in L.
Qed.

Lemma yields_leaf {R : Type} (m : M R) d d' r :
  yields m d d' r -> Leaf (d', r) (run m d).
Proof. unfold yields. intros H. rewrite H. apply Leaf_Ret. Qed.

(** Partial correctness of [while]: an invariant kept by every iteration
    that goes on, and a postcondition met by every way out (the condition
    false, or an exception in the condition or the body), give the
    postcondition of every terminating run. *)
Lemma while_inv (cond : M bool) (body : M unit)
    (Inv : Dev -> Prop) (Q : Dev -> exn + unit -> Prop) :
  (forall d, Inv d ->
     exists d1 c,
       yields cond d d1 c
       /\ match c with
          | inl e => Q d1 (inl e)
          | inr false => Q d1 (inr tt)
          | inr true =>
              exists d2 b,
                yields body d1 d2 b
                /\ match b with
                   | inl e => Q d2 (inl e)
                   | inr _ => Inv d2
                   end
          end) ->
  forall d, Inv d ->
  forall d' r, yields (while cond body) d d' r -> Q d' r.
Proof.
  intros Hstep d Hd d' r Hrun.
  apply yields_leaf in Hrun. unfold run, while in Hrun.
  rewrite (interp_state_iter' _ _ _ tt d) in Hrun.
  unfold Basics.iter, MonadIter_stateT0, Basics.iter, MonadIter_itree in Hrun.
  revert Hrun.
  apply (Leaf_iter_inv _ (d, tt) (fun si => Inv (fst si))
           (fun sr => Q (fst sr) (snd sr))); [| exact Hd].
  clear d Hd d' r. intros [d []] x Hd L. cbn [fst snd] in *.
  unfold Monad.bind, Monad.ret, Monad_itree in L.
  destruct (Hstep d Hd) as (d1 & c & Hc & Hcase).
  unfold yields, run in Hc.
  rewrite interp_state_bind, Hc, bind_ret_l in L. cbn [fst snd] in L.
  destruct c as [e | [|]].
  - rewrite interp_state_ret, bind_ret_l in L. cbn in L.
    apply Leaf_Ret_inv in L. subst x. exact Hcase.
  - destruct Hcase as (d2 & b & Hb & Hcase). unfold yields, run in Hb.
    rewrite interp_state_bind, Hb, bind_ret_l in L. cbn [fst snd] in L.
    destruct b as [e | u]; rewrite interp_state_ret, bind_ret_l in L;
      cbn in L; apply Leaf_Ret_inv in L; subst x; exact Hcase.
  - rewrite interp_state_ret, bind_ret_l in L. cbn in L.
    apply Leaf_Ret_inv in L. subst x. exact Hcase.
Qed.

End LoopInvariant.

(** ** The status poll, both ways *)

Section Polling.

Context {libm : Libm} {Dev : Type} {bus : Transport Dev}.
Implicit Types d : Dev.

Lemma yields_write_inv r v d d' (x : exn + unit) :
  yields (_write_register_byte r v) d d' x ->
  d' = write_register_byte r v d /\ x = inr tt.
Proof.
  intros H. destruct (yields_det _ _ _ _ _ _ (yields_write r v d) H).
  auto.
Qed.

Lemma yields_read_inv r n d d' (x : exn + list Z) :
  yields (_read_register r n) d d' x ->
  read_register r n d = (d', match x with inr data => data | inl _ => [] end)
  /\ exists data, x = inr data.
Proof.
  intros H. destruct (read_register r n d) as [d1 data] eqn:E.
  destruct (yields_det _ _ _ _ _ _ (yields_read r n d d1 data E) H)
    as [-> <-].
  split; [reflexivity | now exists data].
Qed.

Lemma yields_pure_inv {R : Type} (x : exn + R) d d' (r : exn + R) :
  yields (Ret x) d d' r -> d' = d /\ r = x.
Proof.
  intros H. destruct (yields_det _ _ _ _ _ _ (yields_pure x d) H). auto.
Qed.

(** The poll of [_read], with the names the lemmas above use. *)
Lemma poll_never_ends w (I : Dev -> Prop) d d' (r : exn + unit) :
  sleep_error w = None -> never_ready w I -> I d ->
  ~ yields (while (bind (_read_byte _REGISTER_STATUS)
                     (fun status =>
                        ret (negb (Z.land status 0x60 =? 0x60))))
              (time_sleep w)) d d' r.
Proof.
  intros Hs Hnever Hd Hrun.
  refine (while_inv _ _ I (fun _ _ => False) _ d Hd d' r Hrun).
  clear d Hd d' r Hrun. intros d Hd.
  destruct (Hnever d Hd) as (d1 & b & Hread & Hbits & Hnext).
  exists d1, (inr true). split.
  - eapply yields_bind; [apply yields_read_byte, Hread |].
    apply Z.eqb_neq in Hbits. rewrite Hbits. apply yields_ret.
  - exists (sleep w d1), (inr tt).
    split; [apply yields_sleep, Hs | exact Hnext].
Qed.

(** A wait time that [time.sleep] refuses ends the poll at the first read
    that finds the device busy. *)
Lemma poll_raises w e d d1 b :
  sleep_error w = Some e ->
  byte_read _REGISTER_STATUS d d1 b -> Z.land b 0x60 <> 0x60 ->
  yields (while (bind (_read_byte _REGISTER_STATUS)
                   (fun status =>
                      ret (negb (Z.land status 0x60 =? 0x60))))
            (time_sleep w)) d d1 (inl e).
Proof.
  intros Hs Hread Hbits.
  eapply yields_while_raise; [| apply yields_sleep_raise, Hs].
  eapply yields_bind; [apply yields_read_byte, Hread |].
  apply Z.eqb_neq in Hbits. rewrite Hbits. apply yields_ret.
Qed.

Lemma poll_ends_ready w d d' :
  reads_bytes ->
  yields (while (bind (_read_byte _REGISTER_STATUS)
                   (fun status =>
                      ret (negb (Z.land status 0x60 =? 0x60))))
            (time_sleep w)) d d' (inr tt) ->
  polls w d d'.
Proof.
  intros Hreads Hrun.
  refine (while_inv _ _ (fun d0 => forall dz, polls w d0 dz -> polls w d dz)
            (fun dz r => match r with
                         | inr _ => polls w d dz
                         | inl _ => True
                         end)
            _ d (fun _ H => H) d' (inr tt) Hrun).
  clear d' Hrun. intros d0 Hd0.
  destruct (Hreads _REGISTER_STATUS d0) as (d1 & b & Hread & _).
  destruct (Z.eqb_spec (Z.land b 0x60) 0x60) as [Hready | Hbusy].
  - exists d1, (inr false). split.
    + eapply yields_bind; [apply yields_read_byte, Hread |].
      apply Z.eqb_eq in Hready. rewrite Hready. apply yields_ret.
    + apply Hd0. now apply polls_ready with b.
  - exists d1, (inr true). split.
    + eapply yields_bind; [apply yields_read_byte, Hread |].
      apply Z.eqb_neq in Hbusy. rewrite Hbusy. apply yields_ret.
    + destruct (sleep_error w) as [e |] eqn:Hs.
      * exists d1, (inl e). split; [apply yields_sleep_raise, Hs | exact I].
      * exists (sleep w d1), (inr tt). split; [apply yields_sleep, Hs |].
        intros dz Hdz. apply Hd0. now apply polls_busy with d1 b.
Qed.

End Polling.

Section Blocking.

Context {libm : Libm} {Dev : Type} {bus : Transport Dev}.
Implicit Types d : Dev.

Lemma read_never_returns (self : BMP3XX) (I : Dev -> Prop) d d'
    (r : exn + float * float) :
  sleep_error (_wait_time self) = None ->
  never_ready (_wait_time self) I ->
  I (write_register_byte _REGISTER_CONTROL 0x13 d) ->
  ~ yields (_read self) d d' r.
Proof.
  intros Hs Hnever Hd Hrun. unfold _read in Hrun.
  apply yields_bind_inv in Hrun. destruct Hrun as (d1 & x & Hw & Hrest).
  apply yields_write_inv in Hw. destruct Hw as [-> ->].
  apply yields_bind_inv in Hrest. destruct Hrest as (d2 & x & Hpoll & _).
  exact (poll_never_ends _ I _ _ _ Hs Hnever Hd Hpoll).
Qed.

Lemma read_sleep_raises (self : BMP3XX) (e : exn) d d1 b :
  sleep_error (_wait_time self) = Some e ->
  byte_read _REGISTER_STATUS
    (write_register_byte _REGISTER_CONTROL 0x13 d) d1 b ->
  Z.land b 0x60 <> 0x60 ->
  yields (_read self) d d1 (inl e).
Proof.
  intros Hs Hread Hbits. unfold _read.
  eapply yields_bind; [apply yields_write |].
  apply yields_bind_raise.
  exact (poll_raises _ e _ d1 b Hs Hread Hbits).
Qed.

End Blocking.

(** X1: the status poll has no timeout.  Suppose the device never shows
    both ready bits (0x60) in its status register after the forced-mode
    command.  If [time.sleep] accepts the wait time, [_read] never
    terminates, neither with a value nor with an exception, and so neither
    do [pressure], [temperature] and [altitude].  If [time.sleep] refuses
    the wait time (a negative one, NaN, or one too large), all four end
    with the error of [time.sleep] right after the first status read. *)
Theorem measurement_blocks_while_not_ready
    {libm : Libm} {Dev : Type} {bus : Transport Dev}
    (self : BMP3XX) (I : Dev -> Prop) (d : Dev) :
  never_ready (_wait_time self) I ->
  I (write_register_byte _REGISTER_CONTROL 0x13 d) ->
  (sleep_error (_wait_time self) = None ->
   (forall d' r, ~ yields (_read self) d d' r)
   /\ (forall d' r, ~ yields (pressure self) d d' r)
   /\ (forall d' r, ~ yields (temperature self) d d' r)
   /\ (forall d' r, ~ yields (altitude self) d d' r))
  /\ (forall e,
         sleep_error (_wait_time self) = Some e ->
         exists d1 b,
           byte_read _REGISTER_STATUS
             (write_register_byte _REGISTER_CONTROL 0x13 d) d1 b
           /\ yields (_read self) d d1 (inl e)
           /\ yields (pressure self) d d1 (inl e)
           /\ yields (temperature self) d d1 (inl e)
           /\ yields (altitude self) d d1 (inl e)).
Proof.
  intros Hnever Hd. split.
  - intros Hs.
    assert (Hread : forall d' r, ~ yields (_read self) d d' r)
      by (intros d' r; now apply read_never_returns with I).
    assert (Hpres : forall d' r, ~ yields (pressure self) d d' r).
    { intros d' r H. unfold pressure in H.
      apply yields_bind_inv in H. destruct H as (d1 & x & H & _).
      exact (Hread _ _ H). }
    split; [exact Hread |]. split; [exact Hpres |]. split.
    + intros d' r H. unfold temperature in H.
      apply yields_bind_inv in H. destruct H as (d1 & x & H & _).
      exact (Hread _ _ H).
    + intros d' r H. unfold altitude in H.
      apply yields_bind_inv in H. destruct H as (d1 & x & H & _).
      exact (Hpres _ _ H).
  - intros e Hs.
    destruct (Hnever _ Hd) as (d1 & b & Hread & Hbits & _).
    pose proof (read_sleep_raises self e d d1 b Hs Hread Hbits) as Hrun.
    assert (Hpres : yields (pressure self) d d1 (inl e))
      by (unfold pressure; apply yields_bind_raise, Hrun).
    exists d1, b. split; [exact Hread |]. split; [exact Hrun |].
    split; [exact Hpres |]. split.
    + unfold temperature. apply yields_bind_raise, Hrun.
    + unfold altitude. apply yields_bind_raise, Hpres.
Qed.

(** X2: a measurement is never taken early.  On a transport whose
    one-byte reads deliver a byte, whenever [_read] returns a pair, the
    device had shown both ready bits at the last status poll after the
    forced-mode command, and the pair comes from the burst read of the
    pressure data register made right after that poll, which is the last
    transaction of the call. *)
Theorem measurement_only_after_ready
    {libm : Libm} {Dev : Type} {bus : Transport Dev}
    (self : BMP3XX) (d d' : Dev) (v : float * float) :
  reads_bytes ->
  yields (_read self) d d' (inr v) ->
  exists d1 data,
    polls (_wait_time self)
      (write_register_byte _REGISTER_CONTROL 0x13 d) d1
    /\ read_register _REGISTER_PRESSUREDATA 6 d1 = (d', data)
    /\ (6 <= List.length data)%nat.
Proof.
  intros Hreads Hrun. unfold _read in Hrun.
  apply yields_bind_inv in Hrun. destruct Hrun as (d0 & x & Hw & Hrest).
  apply yields_write_inv in Hw. destruct Hw as [-> ->].
  apply yields_bind_inv in Hrest.
  destruct Hrest as (d1 & [e | []] & Hpoll & Hrest);
    [destruct Hrest; discriminate |].
  apply poll_ends_ready in Hpoll; [| exact Hreads].
  apply yields_bind_inv in Hrest. destruct Hrest as (d2 & x & Hr & Hrest).
  apply yields_read_inv in Hr. destruct Hr as [Hr (data & ->)].
  exists d1, data. split; [exact Hpoll |].
  assert (Hitem : forall i (k : Z -> M (float * float)) da db,
             yields (bind (item data i) k) da db (inr v) ->
             exists b, getitem data i = Some b /\ yields (k b) da db (inr v)).
  { intros i k da db H. apply yields_bind_inv in H.
    destruct H as (dc & y & Hi & Hk). unfold item in Hi.
    destruct (getitem data i) as [b |]; apply yields_pure_inv in Hi;
      destruct Hi as [-> ->]; [| destruct Hk; discriminate].
    now exists b. }
  apply Hitem in Hrest. destruct Hrest as (p2 & _ & Hrest).
  apply Hitem in Hrest. destruct Hrest as (p1 & _ & Hrest).
  apply Hitem in Hrest. destruct Hrest as (p0 & _ & Hrest).
  apply Hitem in Hrest. destruct Hrest as (t2 & Ht2 & Hrest).
  apply Hitem in Hrest. destruct Hrest as (t1 & _ & Hrest).
  apply Hitem in Hrest. destruct Hrest as (t0 & _ & Hrest).
  assert (Hlen : (6 <= List.length data)%nat).
  { unfold getitem in Ht2.
    destruct ((0 <=? 5) && (5 <? Z.of_nat (List.length data))) eqn:E.
    - apply andb_true_iff in E. destruct E as [_ E].
      apply Z.ltb_lt in E. lia.
    - destruct ((- Z.of_nat (List.length data) <=? 5) && (5 <? 0)) eqn:E';
        [| discriminate].
      apply andb_true_iff in E'. destruct E' as [_ E']. discriminate. }
  split; [| exact Hlen].
  destruct (_temp_calib self) as [[T1 T2] T3].
  destruct (_pressure_calib self)
    as [[[[[[[[[[P1 P2] P3] P4] P5] P6] P7] P8] P9] P10] P11].
  assert (Hpow : forall x y (k : float -> M (float * float)) da db,
             yields (bind (pow x y) k) da db (inr v) ->
             exists z, yields (k z) da db (inr v)).
  { intros x y k da db H. apply yields_bind_inv in H.
    destruct H as (dc & z & Hp & Hk). unfold pow in Hp.
    apply yields_pure_inv in Hp. destruct Hp as [-> ->].
    destruct (fpow x y) as [e | z]; [destruct Hk; discriminate |].
    now exists z. }
  do 6 (apply Hpow in Hrest; destruct Hrest as (? & Hrest)).
  unfold ret in Hrest. apply yields_pure_inv in Hrest.
  destruct Hrest as [-> _]. exact Hr.
Qed.

(** ** Configuration calls in sequence *)

(** Writing back the position a field already holds changes nothing in the
    oversampling register, and leaves the filter field alone in its own. *)
Lemma written_own_field (b : Z) :
  Spec.byte b ->
  written PressureOversampling b (field PressureOversampling b) = b
  /\ written TemperatureOversampling b (field TemperatureOversampling b) = b
  /\ written FilterCoefficient b (field FilterCoefficient b) = Z.land b 0x0E.
Proof.
  intros Hb.
  pose proof
    (forall_bytes
       (fun b =>
          (written PressureOversampling b (field PressureOversampling b)
           =? b)
          && (written TemperatureOversampling b
                (field TemperatureOversampling b) =? b)
          && (written FilterCoefficient b (field FilterCoefficient b)
              =? Z.land b 0x0E))
       eq_refl b Hb) as H.
  cbv beta in H. repeat rewrite andb_true_iff in H.
  destruct H as [[H1 H2] H3].
  apply Z.eqb_eq in H1, H2, H3. auto.
Qed.

(** The tables have no repeated entry: an entry's position is its index. *)
Lemma index_getitem (s : setting) (i v : Z) :
  0 <= i -> getitem (legal s) i = Some v -> index v (legal s) = Some i.
Proof.
  intros Hi Hget.
  assert (Hlt : i < 8).
  { unfold getitem in Hget.
    destruct ((0 <=? i) && (i <? Z.of_nat (List.length (legal s)))) eqn:E.
    - apply andb_true_iff in E. destruct E as [_ E]. apply Z.ltb_lt in E.
      destruct s; cbn in E; lia.
    - destruct ((- Z.of_nat (List.length (legal s)) <=? i) && (i <? 0))
        eqn:E'; [| discriminate].
      apply andb_true_iff in E'. destruct E' as [_ E'].
      apply Z.ltb_lt in E'. lia. }
  assert (H : i = 0 \/ i = 1 \/ i = 2 \/ i = 3 \/ i = 4 \/ i = 5 \/ i = 6
              \/ i = 7) by lia.
  destruct s; repeat (destruct H as [-> | H]); try subst i;
    cbn in Hget; try discriminate; injection Hget as <-; reflexivity.
Qed.

Section Sequences.

Context {Dev : Type} {bus : Transport Dev}.
Implicit Types d : Dev.

Local Open Scope py_scope.

Lemma setter_run_osr (s : setting) d d1 b v i :
  s <> FilterCoefficient ->
  byte_read _REGISTER_OSR d d1 b ->
  In v (legal s) -> index v (legal s) = Some i ->
  yields (setter s v) d
    (write_register_byte _REGISTER_OSR (written s b i) d1) (inr tt).
Proof.
  intros Hs Hr Hin Hi.
  destruct s;
    [exact (setter_run PressureOversampling d d1 b v i Hr Hin Hi)
    | exact (setter_run TemperatureOversampling d d1 b v i Hr Hin Hi)
    | contradiction].
Qed.

Lemma getter_run_osr (s : setting) d d1 b v :
  s <> FilterCoefficient ->
  byte_read _REGISTER_OSR d d1 b -> Spec.byte b ->
  getitem (legal s) (field s b) = Some v ->
  yields (getter s) d d1 (inr v).
Proof.
  intros Hs Hr Hb Hget.
  assert (Hreg : register_of s = _REGISTER_OSR)
    by (destruct s; [reflexivity | reflexivity | contradiction]).
  rewrite <- Hreg in Hr.
  pose proof (getter_run s d d1 b Hr Hb) as H. now rewrite Hget in H.
Qed.

(** Two settings of the oversampling register, one after the other, and
    both read back. *)
Lemma oversampling_pair_run (s1 s2 : setting) (holds : Dev -> Z -> Prop)
    (v1 v2 : Z) d :
  s1 <> FilterCoefficient -> s2 <> FilterCoefficient -> s1 <> s2 ->
  reads_bytes -> remembers _REGISTER_OSR holds ->
  In v1 (legal s1) -> In v2 (legal s2) ->
  exists d',
    yields (setter s1 v1 ;; setter s2 v2 ;;
            a <- getter s1 ;; b <- getter s2 ;; ret (a, b))
      d d' (inr (v1, v2)).
Proof.
  intros Hs1 Hs2 Hne Hreads [Hwrite Hkeep] Hin1 Hin2.
  destruct (index_legal s1 v1 Hin1) as (i1 & Hi1 & Hg1 & Hlt1).
  destruct (index_legal s2 v2 Hin2) as (i2 & Hi2 & Hg2 & Hlt2).
  assert (Hi18 : 0 <= i1 < 8) by (destruct s1; cbn in Hlt1; lia).
  assert (Hi28 : 0 <= i2 < 8) by (destruct s2; cbn in Hlt2; lia).
  destruct (Hreads _REGISTER_OSR d) as (d1 & b & Hread & Hb).
  pose proof (written_facts b i1 Hb Hi18) as F1.
  assert (Hw1 : Spec.byte (written s1 b i1)) by apply F1.
  pose proof (written_facts (written s1 b i1) i2 Hw1 Hi28) as F2.
  assert (Hw2 : Spec.byte (written s2 (written s1 b i1) i2)) by apply F2.
  assert (Hf : field s1 (written s2 (written s1 b i1) i2) = i1
               /\ field s2 (written s2 (written s1 b i1) i2) = i2).
  { destruct F1 as ((A1 & _ & _) & (B1 & _ & _) & _).
    destruct F2 as ((A2 & _ & A3) & (B2 & _ & B3) & _).
    destruct s1, s2; try contradiction.
    - split; [now rewrite B3 | exact B2].
    - split; [now rewrite A3 | exact A2]. }
  destruct Hf as [Hf1 Hf2].
  set (w1 := written s1 b i1) in *.
  set (w2 := written s2 w1 i2) in *.
  destruct (Hkeep _ _ (Hwrite d1 w1 Hw1)) as (d3 & Hread3 & _).
  destruct (Hkeep _ _ (Hwrite d3 w2 Hw2)) as (d5 & Hread5 & Hold5).
  destruct (Hkeep _ _ Hold5) as (d6 & Hread6 & _).
  exists d6.
  eapply yields_bind;
    [exact (setter_run_osr s1 d d1 b v1 i1 Hs1 Hread Hin1 Hi1) |].
  eapply yields_bind;
    [exact (setter_run_osr s2 _ d3 w1 v2 i2 Hs2 Hread3 Hin2 Hi2) |].
  eapply yields_bind;
    [apply (getter_run_osr s1 _ d5 w2); try assumption; rewrite Hf1; exact Hg1 |].
  eapply yields_bind;
    [apply (getter_run_osr s2 _ d6 w2); try assumption; rewrite Hf2; exact Hg2 |].
  apply yields_ret.
Qed.

End Sequences.

Lemma sensor_remembers (r : Z) :
  r <> _REGISTER_STATUS ->
  remembers (Dev := sensor) r (fun d v => Z.land (regs d r) 0xFF = v).
Proof.
  intros Hr. apply Z.eqb_neq in Hr. split.
  - intros d v Hv. cbn. rewrite Z.eqb_refl.
    now rewrite (land_255_id v Hv), (land_255_id v Hv).
  - intros d v Hv. eexists. split.
    + rewrite <- Hv. apply sensor_byte_read. now rewrite Hr.
    + exact Hv.
Qed.

(** X3: the two oversampling settings do not disturb each other.  On a
    transport whose OSR register remembers the byte written across reads,
    setting both to legal values, in either order, and reading both back
    returns the two values that were set. *)
Theorem oversampling_settings_independent
    {Dev : Type} {bus : Transport Dev} (holds : Dev -> Z -> Prop)
    (vp vt : Z) (d : Dev) :
  reads_bytes -> remembers _REGISTER_OSR holds ->
  In vp _OSR_SETTINGS -> In vt _OSR_SETTINGS ->
  (exists d',
      yields (set_pressure_oversampling vp ;;
              set_temperature_oversampling vt ;;
              p <- pressure_oversampling ;;
              t <- temperature_oversampling ;;
              ret (p, t))
        d d' (inr (vp, vt)))
  /\ (exists d',
         yields (set_temperature_oversampling vt ;;
                 set_pressure_oversampling vp ;;
                 t <- temperature_oversampling ;;
                 p <- pressure_oversampling ;;
                 ret (t, p))
           d d' (inr (vt, vp))).
Proof.
  intros Hreads Hmem Hp Ht. split.
  - exact (oversampling_pair_run PressureOversampling
             TemperatureOversampling holds vp vt d
             ltac:(discriminate) ltac:(discriminate) ltac:(discriminate)
             Hreads Hmem Hp Ht).
  - exact (oversampling_pair_run TemperatureOversampling
             PressureOversampling holds vt vp d
             ltac:(discriminate) ltac:(discriminate) ltac:(discriminate)
             Hreads Hmem Ht Hp).
Qed.

Lemma oversampling_settings_independent_witness :
  exists d',
    yields (set_pressure_oversampling 8 ;;
            set_temperature_oversampling 2 ;;
            p <- pressure_oversampling ;;
            t <- temperature_oversampling ;;
            ret (p, t))
      example_device d' (inr (8, 2)).
Proof.
  refine (proj1 (oversampling_settings_independent _ 8 2 example_device
                   sensor_reads_bytes
                   (sensor_remembers _REGISTER_OSR _) _ _)).
  - discriminate.
  - cbn. auto 10.
  - cbn. auto 10.
Defined.

(** X4: reading a setting and writing it back.  For an oversampling
    property whose field in OSR holds a table position (at most 5),
    assigning the value just read writes back the very byte the register
    holds; for the filter coefficient it writes the register's byte with
    every bit outside the filter field [3:1] cleared. *)
Theorem rewriting_the_value_read
    {Dev : Type} {bus : Transport Dev} (d d1 d2 : Dev) (b : Z) :
  Spec.byte b ->
  (forall s,
      s <> FilterCoefficient ->
      byte_read _REGISTER_OSR d d1 b ->
      byte_read _REGISTER_OSR d1 d2 b ->
      field s b <= 5 ->
      yields (v <- getter s ;; setter s v) d
        (write_register_byte _REGISTER_OSR b d2) (inr tt))
  /\ (byte_read _REGISTER_CONFIG d d1 b ->
      yields (v <- filter_coefficient ;; set_filter_coefficient v) d
        (write_register_byte _REGISTER_CONFIG (Z.land b 0x0E) d1) (inr tt)).
Proof.
  intros Hb. destruct (written_own_field b Hb) as (Wp & Wt & Wf). split.
  - intros s Hs Hr1 Hr2 Hle.
    pose proof (field_range s b) as Hf.
    assert (Hget : exists v, getitem (legal s) (field s b) = Some v).
    { assert (Hk : field s b = 0 \/ field s b = 1 \/ field s b = 2
                   \/ field s b = 3 \/ field s b = 4 \/ field s b = 5)
        by lia.
      destruct s; [| | contradiction];
        repeat (destruct Hk as [-> | Hk]; [eexists; reflexivity |]);
        rewrite Hk; eexists; reflexivity. }
    destruct Hget as (v & Hget).
    pose proof (index_getitem s _ v (proj1 Hf) Hget) as Hidx.
    assert (Hin : In v (legal s)).
    { apply contains_In. unfold contains. apply existsb_exists.
      exists v. split; [| apply Z.eqb_refl].
      unfold getitem in Hget.
      destruct ((0 <=? field s b)
                && (field s b <? Z.of_nat (List.length (legal s))));
        [now apply nth_error_In in Hget |].
      destruct ((- Z.of_nat (List.length (legal s)) <=? field s b)
                && (field s b <? 0));
        [now apply nth_error_In in Hget | discriminate]. }
    eapply yields_bind; [exact (getter_run_osr s d d1 b v Hs Hr1 Hb Hget) |].
    pose proof (setter_run_osr s d1 d2 b v _ Hs Hr2 Hin Hidx) as Hset.
    replace (written s b (field s b)) with b in Hset; [exact Hset |].
    destruct s; [now rewrite Wp | now rewrite Wt | contradiction].
  - intros Hr.
    pose proof (getter_run FilterCoefficient d d1 b Hr Hb) as Hg.
    pose proof (field_range FilterCoefficient b) as Hf.
    assert (Hget : exists v,
               getitem (legal FilterCoefficient) (field FilterCoefficient b)
               = Some v).
    { assert (Hk : field FilterCoefficient b = 0
                   \/ field FilterCoefficient b = 1
                   \/ field FilterCoefficient b = 2
                   \/ field FilterCoefficient b = 3
                   \/ field FilterCoefficient b = 4
                   \/ field FilterCoefficient b = 5
                   \/ field FilterCoefficient b = 6
                   \/ field FilterCoefficient b = 7) by lia.
      repeat (destruct Hk as [-> | Hk]; [eexists; reflexivity |]).
      rewrite Hk. eexists. reflexivity. }
    destruct Hget as (v & Hget). rewrite Hget in Hg.
    pose proof (index_getitem FilterCoefficient _ v (proj1 Hf) Hget) as Hidx.
    assert (Hin : In v _IIR_SETTINGS).
    { unfold getitem in Hget. cbn [legal] in Hget.
      destruct ((0 <=? field FilterCoefficient b)
                && (field FilterCoefficient b
                    <? Z.of_nat (List.length _IIR_SETTINGS)));
        [now apply nth_error_In in Hget |].
      destruct ((- Z.of_nat (List.length _IIR_SETTINGS)
                 <=? field FilterCoefficient b)
                && (field FilterCoefficient b <? 0));
        [now apply nth_error_In in Hget | discriminate]. }
    eapply yields_bind; [exact Hg |].
    rewrite <- Wf. exact (set_filter_run d1 v _ Hidx Hin).
Qed.

Lemma rewriting_the_value_read_witness :
  let d := sensor_with [(_REGISTER_OSR, 0xEB)] 0 in
  let d1 := {| regs := regs d; busy := 0;
               bus_log := [Read _REGISTER_OSR 1] |} in
  let d2 := {| regs := regs d; busy := 0;
               bus_log := [Read _REGISTER_OSR 1; Read _REGISTER_OSR 1] |} in
  yields (v <- getter TemperatureOversampling ;;
          setter TemperatureOversampling v) d
    (write_register_byte _REGISTER_OSR 0xEB d2) (inr tt).
Proof.
  intros d d1 d2.
  refine (proj1 (rewriting_the_value_read d d1 d2 0xEB _)
            TemperatureOversampling _ _ _ _).
  - unfold Spec.byte. lia.
  - discriminate.
  - reflexivity.
  - reflexivity.
  - vm_compute. discriminate.
Defined.

(** X5: an oversampling setter changes its own field only.  For every
    byte read from OSR and every legal value, the byte written back agrees
    with the byte read in every bit outside the property's field (the
    other field and the two top bits alike), and carries the value's table
    position inside it. *)
Theorem oversampling_setters_change_own_field_only
    {Dev : Type} {bus : Transport Dev} (d d1 : Dev) (b v : Z) :
  byte_read _REGISTER_OSR d d1 b -> Spec.byte b -> In v _OSR_SETTINGS ->
  exists i,
    index v _OSR_SETTINGS = Some i
    /\ (exists w,
           yields (set_pressure_oversampling v) d
             (write_register_byte _REGISTER_OSR w d1) (inr tt)
           /\ Spec.bits 2 0 w = i
           /\ Spec.outside 2 0 w = Spec.outside 2 0 b)
    /\ (exists w,
           yields (set_temperature_oversampling v) d
             (write_register_byte _REGISTER_OSR w d1) (inr tt)
           /\ Spec.bits 5 3 w = i
           /\ Spec.outside 5 3 w = Spec.outside 5 3 b).
Proof.
  intros Hr Hb Hin.
  destruct (index_legal PressureOversampling v Hin) as (i & Hi & _ & Hlt).
  cbn in Hlt. cbn [legal] in Hi. exists i. split; [exact Hi |].
  destruct (written_facts b i Hb ltac:(lia))
    as ((P1 & P2 & _) & (T1 & T2 & _) & _).
  split; eexists; (split; [| split; eassumption]).
  - now apply set_pressure_run.
  - now apply set_temperature_run.
Qed.

Lemma oversampling_setters_change_own_field_only_witness :
  let d := sensor_with [(_REGISTER_OSR, 0xEB)] 0 in
  let d1 := {| regs := regs d; busy := 0;
               bus_log := [Read _REGISTER_OSR 1] |} in
  exists i,
    index 32 _OSR_SETTINGS = Some i
    /\ (exists w,
           yields (set_pressure_oversampling 32) d
             (write_register_byte _REGISTER_OSR w d1) (inr tt)
           /\ Spec.bits 2 0 w = i
           /\ Spec.outside 2 0 w = Spec.outside 2 0 0xEB)
    /\ (exists w,
           yields (set_temperature_oversampling 32) d
             (write_register_byte _REGISTER_OSR w d1) (inr tt)
           /\ Spec.bits 5 3 w = i
           /\ Spec.outside 5 3 w = Spec.outside 5 3 0xEB).
Proof.
  intros d d1.
  apply (oversampling_setters_change_own_field_only d d1 0xEB 32).
  - reflexivity.
  - unfold Spec.byte. lia.
  - cbn. auto 10.
Defined.

Lemma sensor_never_ready (w : float) :
  never_ready (Dev := sensor) w
    (fun d => Z.land (regs d _REGISTER_STATUS) 0x60 <> 0x60).
Proof.
  intros d Hd. cbn [read_register write_register_byte sleep sensor_bus].
  unfold byte_read. cbn [read_register sensor_bus]. unfold sensor_read.
  cbn [seq List.map]. rewrite Z.add_0_r, Z.eqb_refl. cbn [andb].
  assert (Hmask : forall x, Z.land (Z.land x 0xFF) 0x60 = Z.land x 0x60).
  { intros x. rewrite <- Z.land_assoc. reflexivity. }
  destruct (negb (Nat.eqb (busy d) 0)).
  - do 2 eexists. split; [reflexivity |]. split; [| exact Hd].
    rewrite <- Z.land_assoc. change (Z.land 0x9F 0x60) with 0.
    rewrite Z.land_0_r. discriminate.
  - do 2 eexists. split; [reflexivity |]. split; [| exact Hd].
    now rewrite Hmask.
Qed.

Lemma measurement_blocks_while_not_ready_witness :
  ~ (exists d' r,
        yields (altitude (libm := example_libm) (example_self 1013.25))
          (sensor_with [(_REGISTER_STATUS, 0x20)] 0) d' r)
  /\ (exists d1,
         yields (altitude (libm := example_libm)
                   {| _temp_calib := fst example_calibration;
                      _pressure_calib := snd example_calibration;
                      sea_level_pressure := 1013.25;
                      _wait_time := (-1)%float |})
           (sensor_with [(_REGISTER_STATUS, 0x20)] 0) d1
           (inl (ValueError "sleep length must be non-negative" []))
         /\ bus_log d1
            = [Read _REGISTER_STATUS 1; Write _REGISTER_CONTROL 0x13]).
Proof.
  split.
  - intros (d' & r & H).
    refine (proj2 (proj2 (proj2
              (proj1 (measurement_blocks_while_not_ready
                        (libm := example_libm) (example_self 1013.25)
                        (fun d =>
                           Z.land (regs d _REGISTER_STATUS) 0x60 <> 0x60)
                        (sensor_with [(_REGISTER_STATUS, 0x20)] 0) _ _)
                 _))) d' r H).
    + apply sensor_never_ready.
    + vm_compute. discriminate.
    + reflexivity.
  - destruct (proj2 (measurement_blocks_while_not_ready
                       (libm := example_libm)
                       {| _temp_calib := fst example_calibration;
                          _pressure_calib := snd example_calibration;
                          sea_level_pressure := 1013.25;
                          _wait_time := (-1)%float |}
                       (fun d =>
                          Z.land (regs d _REGISTER_STATUS) 0x60 <> 0x60)
                       (sensor_with [(_REGISTER_STATUS, 0x20)] 0)
                       (sensor_never_ready _)
                       ltac:(vm_compute; discriminate))
                _ eq_refl)
      as (d1 & b & Hread & _ & _ & _ & Halt).
    exists d1. split; [exact Halt |].
    unfold byte_read in Hread. cbn in Hread.
    injection Hread as <- _. reflexivity.
Defined.

Lemma example_read (sea_level : float) :
  exists d2 v,
    yields (_read (libm := example_libm) (example_self sea_level))
      example_device d2 (inr v).
Proof.
  destruct example_measurement as (d1 & d2 & Hpoll & Hread & _).
  destruct (example_powers sea_level) as (s2 & s3 & a2 & a3 & Hpow).
  exists d2. eexists.
  exact (read_run (example_self sea_level) example_device d1 d2
           _ _ _ _ _ _ s2 s3 a2 a3 Hpoll Hread example_adc_bytes Hpow).
Qed.

Lemma measurement_only_after_ready_witness :
  exists d1 d' data,
    polls 0.002
      (write_register_byte _REGISTER_CONTROL 0x13 example_device) d1
    /\ read_register _REGISTER_PRESSUREDATA 6 d1 = (d', data)
    /\ (6 <= List.length data)%nat.
Proof.
  destruct (example_read 1013.25) as (d2 & v & Hrun).
  destruct (measurement_only_after_ready (libm := example_libm)
              (example_self 1013.25) example_device d2 v
              sensor_reads_bytes Hrun) as (d1 & data & H).
  exists d1, d2, data. exact H.
Defined.

(** ** Bus traffic of the configuration properties *)

Lemma setter_rejects (s : setting) (v : Z) :
  contains v (legal s) = false -> setter s v = raise (rejection s).
Proof.
  intros E.
  destruct s; cbn [setter legal rejection] in *;
    [unfold set_pressure_oversampling | unfold set_temperature_oversampling
     | unfold set_filter_coefficient];
    now rewrite E.
Qed.

Lemma config_register_not_status (s : setting) (d : sensor) :
  (register_of s =? _REGISTER_STATUS) && negb (Nat.eqb (busy d) 0) = false.
Proof. now destruct s. Qed.

(** X6: the bus traffic of the configuration properties, on a device that
    logs every transaction.  From any device state: a getter makes one
    one-byte read of its own register and changes no register; a setter
    given a legal value makes one write to its own register, preceded by
    one one-byte read of it for the two oversampling properties and by
    nothing for the filter coefficient, and leaves every other register as
    it was; a setter given any other value makes no transaction at all. *)
Theorem configuration_bus_traffic (s : setting) (v : Z) (d : sensor) :
  (exists d' r,
      yields (getter s) d d' r
      /\ bus_log d' = Read (register_of s) 1 :: bus_log d
      /\ regs d' = regs d)
  /\ (exists d' r,
         yields (setter s v) d d' r
         /\ (forall a, a <> register_of s -> regs d' a = regs d a)
         /\ if contains v (legal s)
            then exists w,
                bus_log d'
                = Write (register_of s) w
                    :: match s with
                       | FilterCoefficient => []
                       | _ => [Read (register_of s) 1]
                       end ++ bus_log d
            else bus_log d' = bus_log d /\ regs d' = regs d).
Proof.
  pose proof (sensor_byte_read (register_of s) d
                (config_register_not_status s d)) as Hread.
  assert (Hb : Spec.byte (Z.land (regs d (register_of s)) 0xFF))
    by apply land_255_byte.
  split.
  - do 2 eexists. split; [exact (getter_run s d _ _ Hread Hb) |].
    split; reflexivity.
  - destruct (contains v (legal s)) eqn:E.
    + apply contains_In in E.
      destruct (index_legal s v E) as (i & Hi & _).
      do 2 eexists. split; [exact (setter_run s d _ _ v i Hread E Hi) |].
      split.
      * intros a Ha. apply Z.eqb_neq in Ha.
        destruct s; cbn; cbn in Ha; now rewrite Ha.
      * eexists. destruct s; reflexivity.
    + exists d, (inl (rejection s)).
      rewrite (setter_rejects s v E).
      split; [apply yields_raise |]. now repeat split.
Qed.

(** ** Transfers of the wrong length *)

Lemma unpack_le_length (fmt : string) :
  forall (data l : list Z),
    unpack_le fmt data = Some l -> calcsize fmt = Some (List.length data).
Proof.
  induction fmt as [| c fmt IH]; intros data l H;
    cbn [unpack_le calcsize] in *.
  - now destruct data.
  - destruct (field_size c) as [n |]; [| discriminate].
    destruct (Nat.ltb_spec (List.length data) n) as [Hlt | Hge];
      [discriminate |].
    destruct (unpack_le fmt (skipn n data)) as [l' |] eqn:E;
      [| discriminate].
    rewrite (IH _ _ E), length_skipn. f_equal. lia.
Qed.

Lemma unpack_calibration_length (block : list Z) :
  List.length block <> 21%nat ->
  struct_unpack "<HHbhhbbHHbbhbb" block = None.
Proof.
  intros Hlen. cbn [struct_unpack].
  destruct (unpack_le "HHbhhbbHHbbhbb" block) as [l |] eqn:E;
    [| reflexivity].
  apply unpack_le_length in E.
  change (calcsize "HHbhhbbHHbbhbb") with (Some 21%nat) in E.
  injection E as E. congruence.
Qed.

(** X7: a calibration transfer of the wrong length.  If the transport
    delivers anything but 21 bytes for the calibration block,
    [_read_coefficients] ends with the error of [struct.unpack], and a
    construction that had accepted the chip identity ends with it too,
    with the device as the block read left it: the reset command is not
    written. *)
Theorem calibration_block_of_wrong_length
    {libm : Libm} {Dev : Type} {bus : Transport Dev}
    (d0 d d1 : Dev) (block : list Z) (b : Z) :
  read_register _REGISTER_CAL_DATA 21 d = (d1, block) ->
  List.length block <> 21%nat ->
  yields _read_coefficients d d1 (inl StructError)
  /\ (byte_read _REGISTER_CHIPID d0 d b -> b = 0x50 \/ b = 0x60 ->
      yields __init__ d0 d1 (inl StructError)).
Proof.
  intros Hread Hlen.
  assert (Hc : yields _read_coefficients d d1 (inl StructError)).
  { unfold _read_coefficients.
    eapply yields_bind; [apply yields_read, Hread |].
    rewrite (unpack_calibration_length block Hlen).
    apply yields_bind_raise, yields_raise. }
  split; [exact Hc |].
  intros Hid Hok. unfold __init__.
  eapply yields_bind; [apply yields_read_byte, Hid |].
  replace (contains b [_BMP388_CHIP_ID; _BMP390_CHIP_ID]) with true
    by (destruct Hok as [-> | ->]; reflexivity).
  cbn [negb]. apply yields_bind_raise, Hc.
Qed.

Lemma short_transfer_example :
  let d := sensor_with [(_REGISTER_CHIPID, 0x50)] 0 in
  exists d1 d2 block,
    byte_read (bus := truncating 16) _REGISTER_CHIPID d d1 0x50
    /\ read_register (Transport := truncating 16) _REGISTER_CAL_DATA 21 d1
       = (d2, block)
    /\ List.length block = 16%nat
    /\ bus_log d2 = [Read _REGISTER_CAL_DATA 21; Read _REGISTER_CHIPID 1].
Proof. do 3 eexists. repeat split. Qed.

Lemma calibration_block_of_wrong_length_witness :
  exists d',
    yields (bus := truncating 16) (__init__ (libm := example_libm))
      (sensor_with [(_REGISTER_CHIPID, 0x50)] 0) d' (inl StructError)
    /\ bus_log d' = [Read _REGISTER_CAL_DATA 21; Read _REGISTER_CHIPID 1].
Proof.
  destruct short_transfer_example as (d1 & d2 & block & Hid & Hr & Hl & Hlog).
  exists d2. split; [| exact Hlog].
  refine (proj2 (calibration_block_of_wrong_length
                   (libm := example_libm) (bus := truncating 16)
                   _ d1 d2 block 0x50 Hr _) Hid _).
  - rewrite Hl. discriminate.
  - now left.
Defined.

(** X8: a measurement transfer that is too short.  If the status poll
    ends with the device ready ([time.sleep] having accepted the wait time
    after each read that found it busy) and the burst read of the pressure
    data register then delivers fewer than six bytes, [_read] ends with
    IndexError after that read, and so do [pressure] and [temperature]: no
    value is computed from a partial transfer. *)
Theorem short_burst_read_raises
    {libm : Libm} {Dev : Type} {bus : Transport Dev}
    (self : BMP3XX) (d d1 d2 : Dev) (data : list Z) :
  polls (_wait_time self)
    (write_register_byte _REGISTER_CONTROL 0x13 d) d1 ->
  read_register _REGISTER_PRESSUREDATA 6 d1 = (d2, data) ->
  (List.length data < 6)%nat ->
  yields (_read self) d d2 (inl IndexError)
  /\ yields (pressure self) d d2 (inl IndexError)
  /\ yields (temperature self) d d2 (inl IndexError).
Proof.
  intros Hpoll Hread Hlen.
  assert (H : yields (_read self) d d2 (inl IndexError)).
  { unfold _read.
    eapply yields_bind; [apply yields_write |].
    eapply yields_bind; [apply yields_poll, Hpoll |].
    eapply yields_bind; [apply yields_read, Hread |].
    destruct data as [| a0 [| a1 [| a2 [| a3 [| a4 [| a5 data]]]]]];
      try (cbn in Hlen; lia);
      repeat (first
        [ apply yields_bind_raise; apply yields_raise
        | eapply yields_bind; [apply yields_item; reflexivity |] ]). }
  split; [exact H |].
  split; [unfold pressure | unfold temperature];
    apply yields_bind_raise, H.
Qed.

Lemma short_burst_read_raises_witness :
  exists d',
    yields (bus := truncating 4)
      (pressure (libm := example_libm) (example_self 1013.25))
      (sensor_with [(_REGISTER_STATUS, 0x60)] 1) d' (inl IndexError)
    /\ bus_log d'
       = [Read _REGISTER_PRESSUREDATA 6; Read _REGISTER_STATUS 1;
          Read _REGISTER_STATUS 1; Write _REGISTER_CONTROL 0x13].
Proof.
  eexists. split.
  - refine (proj1 (proj2 (short_burst_read_raises
                     (libm := example_libm) (bus := truncating 4)
                     (example_self 1013.25)
                     (sensor_with [(_REGISTER_STATUS, 0x60)] 1)
                     _ _ _ _ _ _))).
    + eapply polls_busy; [reflexivity | discriminate | reflexivity |].
      eapply polls_ready; reflexivity.
    + reflexivity.
    + cbn. lia.
  - reflexivity.
Defined.

(** ** The bus adapters *)

Section WireFacts.

Context {W : Type} {wire : Wire W}.
Implicit Types w : W.

Lemma gives_pure {R : Type} (r : exn + R) w : gives (Ret r) w w r.
Proof. unfold gives. rewrite interp_state_ret. reflexivity. Qed.

Lemma gives_and_then {R S : Type} (m : A R) (k : R -> A S) w w1 a w2 r :
  gives m w w1 (inr a) -> gives (k a) w1 w2 r -> gives (and_then m k) w w2 r.
Proof.
  unfold gives, and_then. intros Hm Hk.
  rewrite interp_state_bind, Hm, bind_ret_l. cbn. exact Hk.
Qed.

Lemma gives_and_then_raise {R S : Type} (m : A R) (k : R -> A S) w w1 e :
  gives m w w1 (inl e) -> gives (and_then m k) w w1 (inl e).
Proof.
  unfold gives, and_then. intros Hm.
  rewrite interp_state_bind, Hm, bind_ret_l. cbn.
  rewrite interp_state_ret. reflexivity.
Qed.

Lemma gives_write (buf : list Z) w :
  gives (call (BusWrite buf)) w (bus_write buf w) (inr tt).
Proof.
  unfold gives, call.
  rewrite interp_state_bind, interp_state_trigger. cbn.
  rewrite bind_ret_l. cbn. rewrite interp_state_ret. reflexivity.
Qed.

Lemma gives_readinto (n : nat) w :
  gives (call (BusReadinto n)) w
    (fst (bus_readinto n w)) (inr (snd (bus_readinto n w))).
Proof.
  unfold gives, call.
  rewrite interp_state_bind, interp_state_trigger. cbn.
  rewrite bind_ret_l. destruct (bus_readinto n w) as [w1 data]. cbn.
  rewrite interp_state_ret. reflexivity.
Qed.

Lemma gives_with {R : Type} (body : A R) w w1 r :
  gives body (enter w) w1 r -> gives (with_device body) w (leave w1) r.
Proof.
  unfold gives, with_device. intros Hb.
  rewrite interp_state_bind, interp_state_trigger. cbn.
  rewrite bind_ret_l. cbn.
  rewrite interp_state_bind, Hb, bind_ret_l. cbn.
  rewrite interp_state_bind, interp_state_trigger. cbn.
  rewrite bind_ret_l. cbn. rewrite interp_state_ret. reflexivity.
Qed.

Lemma gives_det {R : Type} (m : A R) w w1 r1 w2 r2 :
  gives m w w1 r1 -> gives m w w2 r2 -> w1 = w2 /\ r1 = r2.
Proof.
  unfold gives. intros H1 H2. rewrite H1 in H2.
  apply eutt_inv_Ret in H2. inversion H2. auto.
Qed.

(** A write of a frame of bytes inside [with device:]. *)
Lemma gives_write_frame (items : list Z) w :
  bytes items = inr items ->
  gives (with_device
           (and_then (Ret (bytes items)) (fun frame => call (BusWrite frame))))
    w (leave (bus_write items (enter w))) (inr tt).
Proof.
  intros Hf. apply gives_with. rewrite Hf.
  eapply gives_and_then; [apply gives_pure | apply gives_write].
Qed.

(** A command frame followed by a read into a fresh buffer. *)
Lemma gives_read_frame (items : list Z) (length : nat) w :
  bytes items = inr items ->
  gives (with_device
           (and_then (Ret (bytes items))
              (fun frame =>
                 and_then (call (BusWrite frame))
                   (fun _ =>
                      and_then (call (BusReadinto length))
                        (fun data =>
                           Ret (inr (readinto (bytearray length) data)))))))
    w (leave (fst (bus_readinto length (bus_write items (enter w)))))
    (inr (readinto (bytearray length)
            (snd (bus_readinto length (bus_write items (enter w)))))).
Proof.
  intros Hf. apply gives_with. rewrite Hf.
  eapply gives_and_then; [apply gives_pure |].
  eapply gives_and_then; [apply gives_write |].
  eapply gives_and_then; [apply gives_readinto | apply gives_pure].
Qed.

End WireFacts.

Lemma readinto_length (buf data : list Z) :
  List.length (readinto buf data) = List.length buf.
Proof.
  unfold readinto. rewrite length_firstn, length_app, length_skipn. lia.
Qed.

Lemma readinto_full (buf data : list Z) :
  List.length data = List.length buf -> readinto buf data = data.
Proof.
  intros H. unfold readinto. rewrite H, skipn_all, app_nil_r.
  rewrite <- H. apply firstn_all.
Qed.

Lemma bytearray_length (n : nat) : List.length (bytearray n) = n.
Proof. apply repeat_length. Qed.

Lemma land_255_mod (x : Z) : Z.land x 0xFF = x mod 256.
Proof. change 0xFF with (Z.ones 8). now rewrite Z.land_ones by lia. Qed.

Lemma land_127_mod (x : Z) : Z.land x 0x7F = x mod 128.
Proof. change 0x7F with (Z.ones 7). now rewrite Z.land_ones by lia. Qed.

Lemma bytes_of_bytes (items : list Z) :
  Forall Spec.byte items -> bytes items = inr items.
Proof.
  intros H. unfold bytes.
  replace (forallb (fun b => (0 <=? b) && (b <? 256)) items) with true;
    [reflexivity |].
  symmetry. apply forallb_forall. intros b Hb.
  rewrite Forall_forall in H. destruct (H b Hb) as [Hlo Hhi].
  apply andb_true_iff. split; [now apply Z.leb_le | now apply Z.ltb_lt].
Qed.

Lemma lor_128_byte (register : Z) :
  Spec.byte register ->
  Z.lor 0x80 register = 128 + register mod 128
  /\ Spec.byte (Z.lor 0x80 register).
Proof.
  intros Hr.
  pose proof (forall_bytes
                (fun r => (Z.lor 0x80 r =? 128 + r mod 128)
                          && (Z.lor 0x80 r <? 256))
                ltac:(vm_compute; reflexivity) register Hr) as H.
  cbv beta in H. apply andb_true_iff in H. destruct H as [H1 H2].
  apply Z.eqb_eq in H1. apply Z.ltb_lt in H2.
  split; [exact H1 |].
  unfold Spec.byte. split; [| exact H2].
  rewrite H1. pose proof (Z.mod_pos_bound register 128 eq_refl). lia.
Qed.

Lemma lor_128_outside (register : Z) :
  ~ Spec.byte register -> ~ Spec.byte (Z.lor 0x80 register).
Proof.
  intros Hout [Hlo Hhi]. apply Hout.
  apply Z.lor_nonneg in Hlo. destruct Hlo as [_ Hlo].
  split; [exact Hlo |].
  destruct (Z.lt_ge_cases register 256) as [Hlt | Hge]; [exact Hlt |].
  exfalso.
  assert (Hlog : 8 <= Z.log2 (Z.lor 0x80 register)).
  { rewrite Z.log2_lor by lia.
    pose proof (Z.log2_le_mono 256 register Hge) as Hm.
    change (Z.log2 256) with 8 in Hm. lia. }
  assert (Hpos : 0 < Z.lor 0x80 register).
  { destruct (Z.eq_dec (Z.lor 0x80 register) 0) as [E | E].
    - rewrite E in Hlog. cbn in Hlog. lia.
    - assert (0 <= Z.lor 0x80 register) by (apply Z.lor_nonneg; lia). lia. }
  pose proof (Z.log2_spec _ Hpos) as [Hspec _].
  pose proof (Z.pow_le_mono_r 2 8 (Z.log2 (Z.lor 0x80 register))
                ltac:(lia) Hlog) as Hp.
  change (2 ^ 8) with 256 in Hp. lia.
Qed.

(** X9: the I2C adapter accepts every register number and value.  For all
    integers, [_write_register_byte] sends the two-byte frame (register mod
    256, value mod 256) and [_read_register] sends the one-byte frame
    (register mod 256) and then reads; both enter the device before and
    leave it after, and neither raises.  The buffer a read returns has
    exactly the requested length, whatever the bus delivers. *)
Theorem i2c_transfers
    {W : Type} {wire : Wire W} (register value : Z) (length : nat) (w : W) :
  gives (BMP3XX_I2C._write_register_byte register value) w
    (leave (bus_write [register mod 256; value mod 256] (enter w)))
    (inr tt)
  /\ (let r := bus_readinto length
                 (bus_write [register mod 256] (enter w)) in
      gives (BMP3XX_I2C._read_register register length) w
        (leave (fst r)) (inr (readinto (bytearray length) (snd r)))
      /\ List.length (readinto (bytearray length) (snd r)) = length).
Proof.
  split.
  - unfold BMP3XX_I2C._write_register_byte.
    rewrite !land_255_mod. apply gives_write_frame, bytes_of_bytes.
    repeat constructor; apply Z.mod_pos_bound; reflexivity.
  - cbv zeta. split.
    + unfold BMP3XX_I2C._read_register. cbv zeta.
      rewrite land_255_mod. apply gives_read_frame, bytes_of_bytes.
      repeat constructor; apply Z.mod_pos_bound; reflexivity.
    + now rewrite readinto_length, bytearray_length.
Qed.

(** X10: the command bytes of the SPI adapter.  For all integers,
    [_write_register_byte] sends the frame (register mod 128, value mod
    256): its command byte has the top bit clear.  For a register number
    that is a byte, [_read_register] sends the frame (128 + register mod
    128, 0), whose command byte has the top bit set, and then reads a
    buffer of exactly the requested length.  So no read is ever sent as a
    write command, and a register number from 0x80 on addresses the same
    register as the number less 0x80. *)
Theorem spi_transfers
    {W : Type} {wire : Wire W} (register value : Z) (length : nat) (w : W) :
  gives (BMP3XX_SPI._write_register_byte register value) w
    (leave (bus_write [register mod 128; value mod 256] (enter w)))
    (inr tt)
  /\ (Spec.byte register ->
      let r := bus_readinto length
                 (bus_write [128 + register mod 128; 0] (enter w)) in
      gives (BMP3XX_SPI._read_register register length) w
        (leave (fst r)) (inr (readinto (bytearray length) (snd r)))
      /\ List.length (readinto (bytearray length) (snd r)) = length).
Proof.
  split.
  - unfold BMP3XX_SPI._write_register_byte.
    rewrite land_127_mod, land_255_mod.
    apply gives_write_frame, bytes_of_bytes.
    pose proof (Z.mod_pos_bound register 128 eq_refl).
    pose proof (Z.mod_pos_bound value 256 eq_refl).
    repeat constructor; lia.
  - intros Hr. cbv zeta.
    destruct (lor_128_byte register Hr) as [Hlor Hbyte].
    split.
    + unfold BMP3XX_SPI._read_register. cbv zeta.
      rewrite <- Hlor. apply gives_read_frame, bytes_of_bytes.
      apply Forall_cons; [exact Hbyte |].
      apply Forall_cons; [unfold Spec.byte; lia | constructor].
    + now rewrite readinto_length, bytearray_length.
Qed.

Lemma spi_transfers_witness :
  gives (BMP3XX_SPI._read_register _REGISTER_PRESSUREDATA 6) []
    [Left; ReadInto 6; Wrote [0x84; 0x00]; Entered]
    (inr [0xA5; 0xA5; 0xA5; 0xA5; 0xA5; 0xA5]).
Proof.
  refine (proj1 (proj2 (spi_transfers (wire := recorder)
                          _REGISTER_PRESSUREDATA 0 6 []) _)).
  unfold Spec.byte, _REGISTER_PRESSUREDATA. lia.
Defined.

(** X11: the SPI adapter does not reduce the register number of a read.
    For a register number that is not a byte, [_read_register] raises the
    ValueError of [bytes] before anything is sent: the device is entered
    and left, with no write and no read in between.  (The I2C adapter and
    the SPI write mask the number instead.) *)
Theorem spi_read_rejects_wide_register
    {W : Type} {wire : Wire W} (register : Z) (length : nat) (w : W) :
  ~ Spec.byte register ->
  gives (BMP3XX_SPI._read_register register length) w
    (leave (enter w))
    (inl (ValueError "bytes must be in range(0, 256)" [])).
Proof.
  intros Hout. apply lor_128_outside in Hout.
  unfold BMP3XX_SPI._read_register. cbv zeta. apply gives_with.
  assert (E : bytes [Z.lor 0x80 register; 0x00]
              = inl (ValueError "bytes must be in range(0, 256)" [])).
  { unfold bytes. cbn [forallb].
    destruct ((0 <=? Z.lor 0x80 register) && (Z.lor 0x80 register <? 256))
      eqn:B; [| reflexivity].
    exfalso. apply Hout. apply andb_true_iff in B. destruct B as [B1 B2].
    split; [now apply Z.leb_le | now apply Z.ltb_lt]. }
  rewrite E. apply gives_and_then_raise, gives_pure.
Qed.

Lemma spi_read_rejects_wide_register_witness :
  gives (BMP3XX_SPI._read_register 0x100 1) []
    [Left; Entered]
    (inl (ValueError "bytes must be in range(0, 256)" [])).
Proof.
  apply (spi_read_rejects_wide_register (wire := recorder) 0x100 1 []).
  unfold Spec.byte. lia.
Defined.
